(** * tsd-lite: assertion extraction and diagnostic reconciliation

    A shallow embedding of [extractAssertions] and
    [parseErrorAssertionToLocation] (parser.ts) and of [isIgnoredDiagnostic]
    and [tsdLite] (the module that imports them), followed by the properties
    of the reconciliation of the checker's diagnostics with the
    [expectError] assertions.

    JavaScript objects compared by identity (syntax nodes in a [Set],
    [Location] literals used as [Map] keys) carry an explicit identity;
    [Map] and [Set] are insertion-ordered lists, since the iteration order
    decides which entry a diagnostic is matched to. *)

From Stdlib Require Import List ZArith String Ascii Bool Arith Lia Permutation.
Import ListNotations.

#[local] Set Warnings "-register-all".
Local Open Scope string_scope.
Local Open Scope list_scope.
Local Open Scope Z_scope.

(** ** Data of the TypeScript compiler API, as far as the code reads it *)

Module SourceFile.
(** [ts.SourceFile]: only [fileName] is read. *)
Record t := mk { fileName : string }.
End SourceFile.

Module Node.
(** [ts.isCallExpression(node)], with [node.expression.getText()]. *)
Inductive kind :=
| CallExpression (expression_getText : string)
| Other.

(** [ts.Node]: [id] is the identity of the object; [pos] is the own
    property of that name, the offset where the node starts with the
    blanks and comments before it; the other fields are what the methods
    of the same name return ([getEnd] returns the own property [end]),
    [children] what [ts.forEachChild] enumerates. *)
Inductive t := mk {
  id : nat;
  syntaxKind : kind;
  getSourceFile : SourceFile.t;
  pos : Z;
  getStart : Z;
  getEnd : Z;
  children : list t
}.
End Node.

Module DiagnosticWithLocation.
(** [ts.DiagnosticWithLocation]: [file], [start] and [length] are defined. *)
Record t := mk {
  code : Z;
  file : SourceFile.t;
  start : Z;
  length : Z;
  messageText : string
}.
End DiagnosticWithLocation.

Module Diagnostic.
(** [ts.Diagnostic]: either located in a file, or with [file] (and [start],
    [length]) undefined. *)
Inductive t :=
| WithLocation (d : DiagnosticWithLocation.t)
| WithoutLocation (code : Z) (messageText : string).

Definition file (diagnostic : t) : option SourceFile.t :=
  match diagnostic with
  | WithLocation d => Some (DiagnosticWithLocation.file d)
  | WithoutLocation _ _ => None
  end.

Definition code (diagnostic : t) : Z :=
  match diagnostic with
  | WithLocation d => DiagnosticWithLocation.code d
  | WithoutLocation c _ => c
  end.
End Diagnostic.

Module Location.
(** The [Location] literal built for an [expectError] call. [ref] is the
    identity of the object: a [Map] compares object keys by identity. *)
Record t := mk {
  ref : nat;
  fileName : string;
  start : Z;
  end_ : Z
}.
End Location.

(** ** [Set<number>], [Set<string>] and [Set<ts.CallExpression>] *)

Definition Set_has_number (s : list Z) (x : Z) : bool :=
  existsb (Z.eqb x) s.

Definition Set_has_string (s : list string) (x : string) : bool :=
  existsb (String.eqb x) s.

Module NodeSet.
(** Insertion-ordered, membership by object identity. *)
Definition t := list Node.t.

Definition has (s : t) (node : Node.t) : bool :=
  existsb (fun m => Nat.eqb (Node.id m) (Node.id node)) s.

Definition add (node : Node.t) (s : t) : t :=
  if has s node then s else s ++ [node].

Definition size (s : t) : nat := List.length s.
End NodeSet.

(** ** [Map<Assertion, Set<ts.CallExpression>>] *)

Module Assertions.
Definition t := list (string * NodeSet.t).

Fixpoint get (key : string) (m : t) : option NodeSet.t :=
  match m with
  | [] => None
  | (k, v) :: rest => if String.eqb k key then Some v else get key rest
  end.

(** [Map.prototype.set]: an existing key keeps its place. *)
Fixpoint set (key : string) (v : NodeSet.t) (m : t) : t :=
  match m with
  | [] => [(key, v)]
  | (k, v') :: rest =>
      if String.eqb k key then (k, v) :: rest else (k, v') :: set key v rest
  end.
End Assertions.

(** ** [Map<Location, ExpectedError>], keyed by the identity of the location *)

Module ExpectedErrors.
Definition t := list (Location.t * Node.t).

Definition sameKey (a b : Location.t) : bool :=
  Nat.eqb (Location.ref a) (Location.ref b).

Fixpoint set (key : Location.t) (v : Node.t) (m : t) : t :=
  match m with
  | [] => [(key, v)]
  | (k, v') :: rest =>
      if sameKey k key then (k, v) :: rest else (k, v') :: set key v rest
  end.

(** [Map.prototype.delete]: removes the entry of that key, if any. *)
Fixpoint delete (key : Location.t) (m : t) : t :=
  match m with
  | [] => []
  | (k, v) :: rest =>
      if sameKey k key then rest else (k, v) :: delete key rest
  end.
End ExpectedErrors.

(** ** The diagnostic codes *)

Module DiagnosticCode.
Definition AwaitExpressionOnlyAllowedWithinAsyncFunction := 1308.
Definition TopLevelAwaitOnlyAllowedWhenModuleESNextOrSystem := 1378.
Definition GenericTypeRequiresTypeArguments := 2314.
Definition TypeIsNotAssignableToOtherType := 2322.
Definition PropertyDoesNotExistOnType := 2339.
Definition TypeDoesNotSatisfyTheConstraint := 2344.
Definition ArgumentTypeIsNotAssignableToParameterType := 2345.
Definition ValueOfTypeNotCallable := 2348.
Definition ExpressionNotCallable := 2349.
Definition OnlyVoidFunctionIsNewCallable := 2350.
Definition ExpressionNotConstructable := 2351.
Definition CannotAssignToReadOnlyProperty := 2540.
Definition ExpectedArgumentsButGotOther := 2554.
Definition ExpectedAtLeastArgumentsButGotOther := 2555.
Definition TypeHasNoPropertiesInCommonWith := 2559.
Definition NoOverloadExpectsCountOfArguments := 2575.
Definition ThisContextOfTypeNotAssignableToMethodOfThisType := 2684.
Definition PropertyMissingInType1ButRequiredInType2 := 2741.
Definition NoOverloadExpectsCountOfTypeArguments := 2743.
Definition NoOverloadMatches := 2769.
Definition StringLiteralTypeIsNotAssignableToUnionTypeWithSuggestion := 2820.
Definition MemberCannotHaveOverrideModifierBecauseItIsNotDeclaredInBaseClass := 4113.
Definition MemberMustHaveOverrideModifier := 4114.
Definition NewExpressionTargetLackingConstructSignatureHasAnyType := 7009.
End DiagnosticCode.

(** List of diagnostic codes that should be ignored in general. *)
Definition ignoredDiagnostics : list Z :=
  [ DiagnosticCode.AwaitExpressionOnlyAllowedWithinAsyncFunction;
    DiagnosticCode.TopLevelAwaitOnlyAllowedWhenModuleESNextOrSystem ].

(** List of diagnostic codes which should be ignored inside [expectError]
    statements. *)
Definition expectErrorDiagnosticCodesToIgnore : list Z :=
  [ DiagnosticCode.ArgumentTypeIsNotAssignableToParameterType;
    DiagnosticCode.PropertyDoesNotExistOnType;
    DiagnosticCode.CannotAssignToReadOnlyProperty;
    DiagnosticCode.TypeIsNotAssignableToOtherType;
    DiagnosticCode.TypeDoesNotSatisfyTheConstraint;
    DiagnosticCode.GenericTypeRequiresTypeArguments;
    DiagnosticCode.ExpectedArgumentsButGotOther;
    DiagnosticCode.ExpectedAtLeastArgumentsButGotOther;
    DiagnosticCode.NoOverloadExpectsCountOfArguments;
    DiagnosticCode.NoOverloadExpectsCountOfTypeArguments;
    DiagnosticCode.NoOverloadMatches;
    DiagnosticCode.PropertyMissingInType1ButRequiredInType2;
    DiagnosticCode.TypeHasNoPropertiesInCommonWith;
    DiagnosticCode.ThisContextOfTypeNotAssignableToMethodOfThisType;
    DiagnosticCode.ValueOfTypeNotCallable;
    DiagnosticCode.ExpressionNotCallable;
    DiagnosticCode.OnlyVoidFunctionIsNewCallable;
    DiagnosticCode.ExpressionNotConstructable;
    DiagnosticCode.NewExpressionTargetLackingConstructSignatureHasAnyType;
    DiagnosticCode.MemberCannotHaveOverrideModifierBecauseItIsNotDeclaredInBaseClass;
    DiagnosticCode.MemberMustHaveOverrideModifier;
    DiagnosticCode.StringLiteralTypeIsNotAssignableToUnionTypeWithSuggestion ].

(** ** The classifier *)

(** The type guard [diagnostic.file !== undefined]. *)
Definition isDiagnosticWithLocation (diagnostic : Diagnostic.t) : bool :=
  match Diagnostic.file diagnostic with
  | Some _ => true
  | None => false
  end.

(** The result of [isIgnoredDiagnostic]: "ignore", "preserve", or the
    location (the very key object of the map) the diagnostic falls in. *)
Inductive IgnoreDiagnosticResult :=
| ignore
| preserve
| matched (location : Location.t).

(** The condition of the [if] inside the [for ... of expectedErrors] loop. *)
Definition inside (diagnosticFileName : string) (diagnosticStart : Z)
    (location : Location.t) : bool :=
  String.eqb diagnosticFileName (Location.fileName location)
  && (diagnosticStart >? Location.start location)
  && (diagnosticStart <? Location.end_ location).

(** The [for (const [location] of expectedErrors)] loop with its [return]
    and the final [return "preserve"]. *)
Fixpoint scanExpectedErrors (diagnosticFileName : string) (diagnosticStart : Z)
    (expectedErrors : ExpectedErrors.t) : IgnoreDiagnosticResult :=
  match expectedErrors with
  | [] => preserve
  | (location, _) :: rest =>
      if inside diagnosticFileName diagnosticStart location
      then matched location
      else scanExpectedErrors diagnosticFileName diagnosticStart rest
  end.

Definition isIgnoredDiagnostic (diagnostic : DiagnosticWithLocation.t)
    (expectedErrors : ExpectedErrors.t) : IgnoreDiagnosticResult :=
  if Set_has_number ignoredDiagnostics (DiagnosticWithLocation.code diagnostic)
  then ignore
  else if negb (Set_has_number expectErrorDiagnosticCodesToIgnore
                  (DiagnosticWithLocation.code diagnostic))
  then preserve
  else
    let diagnosticFileName :=
      SourceFile.fileName (DiagnosticWithLocation.file diagnostic) in
    let diagnosticStart := DiagnosticWithLocation.start diagnostic in
    scanExpectedErrors diagnosticFileName diagnosticStart expectedErrors.

(** ** The regular expression [/[/\\]node_modules[/\\]/] *)

Module NodeModules.
(** The character class [[/\\]]: a slash (47) or a backslash (92). *)
Definition separator (c : ascii) : bool :=
  Ascii.eqb c "047"%char || Ascii.eqb c "092"%char.

(** [s] starts with [literal] followed by a separator. *)
Fixpoint literalThenSeparator (literal s : string) : bool :=
  match literal, s with
  | EmptyString, String c _ => separator c
  | EmptyString, EmptyString => false
  | String p literal', String c s' =>
      Ascii.eqb p c && literalThenSeparator literal' s'
  | String _ _, EmptyString => false
  end.

(** [RegExp.prototype.test]: a match starting at some position of [s]. *)
Fixpoint test (s : string) : bool :=
  match s with
  | EmptyString => false
  | String c s' =>
      (separator c && literalThenSeparator "node_modules" s') || test s'
  end.
End NodeModules.

(** ** The parser: [extractAssertions] and [parseErrorAssertionToLocation] *)

(** The enum [Assertion] is declared in handleAssertions.ts, outside the
    sources at hand. The parser reads two things of it, which are taken as
    parameters: [Object.values(Assertion)] and [Assertion.EXPECT_ERROR]. *)
Class AssertionEnum := {
  Assertion_values : list string;
  EXPECT_ERROR : string
}.

Module TsProgram.
(** [ts.Program]: what its methods return. *)
Record t {TypeChecker : Type} := mk {
  getSyntacticDiagnostics : list Diagnostic.t;
  getSemanticDiagnostics : list Diagnostic.t;
  getTypeChecker : TypeChecker;
  getSourceFiles : list Node.t
}.
Arguments t : clear implicits.
End TsProgram.

Section Parser.
Context {Assertion : AssertionEnum}.

Definition assertionFnNames : list string := Assertion_values.

(** The body of [if (assertionFnNames.has(identifier))]. *)
Definition addAssertion (identifier : string) (node : Node.t)
    (assertions : Assertions.t) : Assertions.t :=
  let nodes :=
    match Assertions.get identifier assertions with
    | Some nodes => nodes
    | None => []
    end in
  Assertions.set identifier (NodeSet.add node nodes) assertions.

(** What [visit] does at [node] itself, before it descends. *)
Definition visitNode (node : Node.t) (assertions : Assertions.t)
    : Assertions.t :=
  match Node.syntaxKind node with
  | Node.CallExpression identifier =>
      if Set_has_string assertionFnNames identifier
      then addAssertion identifier node assertions
      else assertions
  | Node.Other => assertions
  end.

(** [visit]: the node, then [ts.forEachChild(node, visit)]. [visit] returns
    nothing, so [forEachChild] never stops early. *)
Fixpoint visit (node : Node.t) (assertions : Assertions.t) : Assertions.t :=
  match node with
  | Node.mk _ _ _ _ _ _ children =>
      (fix forEachChild (cs : list Node.t) (acc : Assertions.t) :=
         match cs with
         | [] => acc
         | c :: cs' => forEachChild cs' (visit c acc)
         end) children (visitNode node assertions)
  end.

(** [assertions.forEach((nodes) => { assertionCount += nodes.size })]. *)
Definition countAssertions (assertions : Assertions.t) : nat :=
  fold_left (fun assertionCount entry =>
               (assertionCount + NodeSet.size (snd entry))%nat)
            assertions 0%nat.

Definition extractAssertions {TypeChecker : Type}
    (program : TsProgram.t TypeChecker) : Assertions.t * nat :=
  let assertions :=
    fold_left (fun assertions sourceFile => visit sourceFile assertions)
              (TsProgram.getSourceFiles program) [] in
  (assertions, countAssertions assertions).

(** The [Location] literal of the loop body; [ref] is the identity the
    fresh object gets. *)
Definition locationOf (ref : nat) (node : Node.t) : Location.t :=
  {| Location.ref := ref;
     Location.fileName := SourceFile.fileName (Node.getSourceFile node);
     Location.start := Node.getStart node;
     Location.end_ := Node.getEnd node |}.

(** Every evaluation of the object literal allocates a new object: the
    [n]-th one gets identity [n]. *)
Definition parseErrorAssertionToLocation (assertions : Assertions.t)
    : ExpectedErrors.t :=
  match Assertions.get EXPECT_ERROR assertions with
  | None => []
  | Some nodes =>
      fold_left
        (fun expectedErrors node =>
           let location := locationOf (List.length expectedErrors) node in
           ExpectedErrors.set location node expectedErrors)
        nodes []
  end.
End Parser.

(** ** The calls [tsdLite] makes, in order *)

Module Call.
Inductive t :=
| resolveCompilerOptions (testFilePath : string)
| createProgram (rootNames : list string)
| getSyntacticDiagnostics
| getSemanticDiagnostics
| getTypeChecker
| extractAssertions
| handleAssertions
| parseErrorAssertionToLocation
| isIgnoredDiagnostic (diagnostic : DiagnosticWithLocation.t).
End Call.

(** A computation that records the calls it makes. *)
Definition Traced (A : Type) : Type := (A * list Call.t)%type.

Definition ret {A : Type} (a : A) : Traced A := (a, []).

Definition bind {A B : Type} (m : Traced A) (f : A -> Traced B) : Traced B :=
  let (b, calls) := f (fst m) in (b, snd m ++ calls).

Definition called {A : Type} (c : Call.t) (a : A) : Traced A := (a, [c]).

Notation "x <- m ;; k" := (bind m (fun x => k))
  (at level 61, m at next level, right associativity).

(** The value computed, and the calls made. *)
Definition result {A : Type} (m : Traced A) : A := fst m.
Definition calls {A : Type} (m : Traced A) : list Call.t := snd m.

(** [for (const x of xs)] over a loop body that threads a state. *)
Fixpoint forOf {A St : Type} (body : St -> A -> Traced St) (xs : list A)
    (s : St) : Traced St :=
  match xs with
  | [] => ret s
  | x :: xs' => s' <- body s x ;; forOf body xs' s'
  end.

(** ** The pipeline *)

(** The collaborators of [tsdLite] that are outside the sources at hand:
    [resolveCompilerOptions], [ts.createProgram] and [handleAssertions],
    with the types of what they exchange. *)
Class Host := {
  CompilerOptions : Type;
  TypeChecker : Type;
  AssertionResult : Type;
  resolveCompilerOptions : string -> CompilerOptions * list Diagnostic.t;
  createProgram : list string -> CompilerOptions -> TsProgram.t TypeChecker;
  handleAssertions : TypeChecker -> Assertions.t -> list AssertionResult
}.

(** An element of [tsdResults]: a result of [handleAssertions], a
    diagnostic pushed as it is, or [{...error, messageText}] for the node
    [error] of an expectation; what that copy holds is given by [spread]. *)
Inductive TsdResult {AssertionResult : Type} :=
| OfAssertion (r : AssertionResult)
| OfDiagnostic (diagnostic : Diagnostic.t)
| OfExpectedError (error : Node.t) (messageText : string).
Arguments TsdResult : clear implicits.

Record TsdOutput {AssertionResult : Type} := mkOutput {
  assertionCount : nat;
  tsdResults : list (TsdResult AssertionResult);
  tsdErrors : option (list Diagnostic.t)
}.
Arguments TsdOutput : clear implicits.

Section Pipeline.
Context {Assertion : AssertionEnum} {host : Host}.

(** The state of the loop over the semantic diagnostics: [tsdResults] and
    [expectedErrorsLocationsWithFoundDiagnostics]. *)
Definition LoopState : Type :=
  (list (TsdResult AssertionResult) * list Location.t)%type.

(** The body of [for (const diagnostic of semanticDiagnostics)]. *)
Definition reconcileDiagnostic (expectedErrors : ExpectedErrors.t)
    (state : LoopState) (diagnostic : Diagnostic.t) : Traced LoopState :=
  let '(tsdResults, found) := state in
  if negb (isDiagnosticWithLocation diagnostic) then ret state
  else
    match diagnostic with
    | Diagnostic.WithoutLocation _ _ => ret state
    | Diagnostic.WithLocation d =>
        if NodeModules.test
             (SourceFile.fileName (DiagnosticWithLocation.file d))
        then ret state
        else
          ignoreDiagnosticResult <-
            called (Call.isIgnoredDiagnostic d)
                   (isIgnoredDiagnostic d expectedErrors) ;;
          match ignoreDiagnosticResult with
          | preserve => ret (tsdResults ++ [OfDiagnostic diagnostic], found)
          | ignore => ret state
          | matched location => ret (tsdResults, found ++ [location])
          end
    end.

(** [for (const errorLocationToRemove of ...) expectedErrors.delete(...)]. *)
Definition removeFound (found : list Location.t)
    (expectedErrors : ExpectedErrors.t) : ExpectedErrors.t :=
  fold_left (fun expectedErrors errorLocationToRemove =>
               ExpectedErrors.delete errorLocationToRemove expectedErrors)
            found expectedErrors.

Definition notFound (error : Node.t) : TsdResult AssertionResult :=
  OfExpectedError error "Expected an error, but found none.".

(** [for (const [, error] of expectedErrors) tsdResults.push(...)]. *)
Definition reportRemaining (expectedErrors : ExpectedErrors.t)
    (tsdResults : list (TsdResult AssertionResult))
    : list (TsdResult AssertionResult) :=
  fold_left (fun tsdResults entry => tsdResults ++ [notFound (snd entry)])
            expectedErrors tsdResults.

Definition tsdLite (testFilePath : string)
    : Traced (TsdOutput AssertionResult) :=
  resolved <- called (Call.resolveCompilerOptions testFilePath)
                     (resolveCompilerOptions testFilePath) ;;
  let '(compilerOptions, configDiagnostics) := resolved in
  if negb (Nat.eqb (List.length configDiagnostics) 0)
  then ret {| tsdErrors := Some configDiagnostics;
              assertionCount := 0;
              tsdResults := [] |}
  else
    program <- called (Call.createProgram [testFilePath])
                      (createProgram [testFilePath] compilerOptions) ;;
    syntacticDiagnostics <-
      called Call.getSyntacticDiagnostics
             (TsProgram.getSyntacticDiagnostics program) ;;
    if negb (Nat.eqb (List.length syntacticDiagnostics) 0)
    then ret {| tsdErrors := Some syntacticDiagnostics;
                assertionCount := 0;
                tsdResults := [] |}
    else
      semanticDiagnostics <-
        called Call.getSemanticDiagnostics
               (TsProgram.getSemanticDiagnostics program) ;;
      typeChecker <-
        called Call.getTypeChecker (TsProgram.getTypeChecker program) ;;
      extracted <-
        called Call.extractAssertions (extractAssertions program) ;;
      let '(assertions, assertionCount) := extracted in
      tsdResults <-
        called Call.handleAssertions
               (map OfAssertion (handleAssertions typeChecker assertions)) ;;
      expectedErrors <-
        called Call.parseErrorAssertionToLocation
               (parseErrorAssertionToLocation assertions) ;;
      state <-
        forOf (reconcileDiagnostic expectedErrors) semanticDiagnostics
              (tsdResults, []) ;;
      let '(tsdResults, found) := state in
      let expectedErrors := removeFound found expectedErrors in
      let tsdResults := reportRemaining expectedErrors tsdResults in
      ret {| assertionCount := assertionCount;
             tsdResults := tsdResults;
             tsdErrors := None |}.
End Pipeline.

(** ** Vocabulary of the properties *)

(** The span of [location] strictly contains the start of the diagnostic:
    same file, and [location.start < diagnostic.start < location.end]. *)
Definition strictlyContains (location : Location.t)
    (d : DiagnosticWithLocation.t) : Prop :=
  Location.fileName location
    = SourceFile.fileName (DiagnosticWithLocation.file d)
  /\ Location.start location < DiagnosticWithLocation.start d
  /\ DiagnosticWithLocation.start d < Location.end_ location.

(** The same for the span of a syntax node. *)
Definition spanContains (node : Node.t) (d : DiagnosticWithLocation.t) : Prop :=
  SourceFile.fileName (Node.getSourceFile node)
    = SourceFile.fileName (DiagnosticWithLocation.file d)
  /\ Node.getStart node < DiagnosticWithLocation.start d
  /\ DiagnosticWithLocation.start d < Node.getEnd node.

(** A path with a [node_modules] segment between two separators. *)
Definition underNodeModules (fileName : string) : Prop :=
  exists (before after : string) (s1 s2 : ascii),
    NodeModules.separator s1 = true /\ NodeModules.separator s2 = true /\
    fileName
      = (before ++ String s1 ("node_modules" ++ String s2 after))%string.

(** The nodes of a tree in the order [visit] reaches them. *)
Fixpoint preorder (node : Node.t) : list Node.t :=
  match node with
  | Node.mk _ _ _ _ _ _ children =>
      node :: (fix each (cs : list Node.t) : list Node.t :=
                 match cs with
                 | [] => []
                 | c :: cs' => preorder c ++ each cs'
                 end) children
  end.

(** All nodes of all source files of a program, in traversal order. *)
Definition nodesOf {TypeChecker : Type} (program : TsProgram.t TypeChecker)
    : list Node.t :=
  flat_map preorder (TsProgram.getSourceFiles program).

(** A call of the assertion function named [identifier]. *)
Definition isCallOf (identifier : string) (node : Node.t) : Prop :=
  Node.syntaxKind node = Node.CallExpression identifier.

(** A call whose callee text is a recognised assertion identifier. *)
Definition isAssertionCall {Assertion : AssertionEnum} (node : Node.t) : bool :=
  match Node.syntaxKind node with
  | Node.CallExpression identifier =>
      Set_has_string assertionFnNames identifier
  | Node.Other => false
  end.

(** Distinct objects have distinct identities. *)
Definition distinctIdentities (nodes : list Node.t) : Prop :=
  NoDup (map Node.id nodes).

(** What the loop body does with a diagnostic: [None] when it is skipped
    before the classifier is called, else the classifier's answer. *)
Definition verdict (expectedErrors : ExpectedErrors.t)
    (diagnostic : Diagnostic.t) : option IgnoreDiagnosticResult :=
  match diagnostic with
  | Diagnostic.WithoutLocation _ _ => None
  | Diagnostic.WithLocation d =>
      if NodeModules.test (SourceFile.fileName (DiagnosticWithLocation.file d))
      then None
      else Some (isIgnoredDiagnostic d expectedErrors)
  end.

(** The diagnostics the loop pushes to [tsdResults]. *)
Definition preserved {AssertionResult : Type} (expectedErrors : ExpectedErrors.t)
    (diagnostics : list Diagnostic.t) : list (TsdResult AssertionResult) :=
  flat_map (fun diagnostic =>
              match verdict expectedErrors diagnostic with
              | Some preserve => [OfDiagnostic diagnostic]
              | _ => []
              end) diagnostics.

(** The locations the loop pushes to
    [expectedErrorsLocationsWithFoundDiagnostics]. *)
Definition foundLocations (expectedErrors : ExpectedErrors.t)
    (diagnostics : list Diagnostic.t) : list Location.t :=
  flat_map (fun diagnostic =>
              match verdict expectedErrors diagnostic with
              | Some (matched location) => [location]
              | _ => []
              end) diagnostics.

(** The calls of the classifier the loop makes. *)
Definition classifierCalls (diagnostics : list Diagnostic.t) : list Call.t :=
  flat_map (fun diagnostic =>
              match diagnostic with
              | Diagnostic.WithLocation d =>
                  if NodeModules.test
                       (SourceFile.fileName (DiagnosticWithLocation.file d))
                  then []
                  else [Call.isIgnoredDiagnostic d]
              | Diagnostic.WithoutLocation _ _ => []
              end) diagnostics.

Definition isOfExpectedError {AssertionResult : Type}
    (r : TsdResult AssertionResult) : bool :=
  match r with
  | OfExpectedError _ _ => true
  | _ => false
  end.

Section Run.
Context {Assertion : AssertionEnum} {host : Host}.

(** The intermediate values of a run of [tsdLite] on [testFilePath]. *)
Definition configDiagnosticsOf (testFilePath : string) : list Diagnostic.t :=
  snd (resolveCompilerOptions testFilePath).

Definition programOf (testFilePath : string) : TsProgram.t TypeChecker :=
  createProgram [testFilePath] (fst (resolveCompilerOptions testFilePath)).

Definition syntacticDiagnosticsOf (testFilePath : string) :=
  TsProgram.getSyntacticDiagnostics (programOf testFilePath).

Definition semanticDiagnosticsOf (testFilePath : string) :=
  TsProgram.getSemanticDiagnostics (programOf testFilePath).

Definition assertionsOf (testFilePath : string) : Assertions.t :=
  fst (extractAssertions (programOf testFilePath)).

(** The Expected-Error Index as built, before reconciliation. *)
Definition expectedErrorsOf (testFilePath : string) : ExpectedErrors.t :=
  parseErrorAssertionToLocation (assertionsOf testFilePath).

Definition assertionResultsOf (testFilePath : string)
    : list (TsdResult AssertionResult) :=
  map OfAssertion
      (handleAssertions (TsProgram.getTypeChecker (programOf testFilePath))
                        (assertionsOf testFilePath)).

(** The state after the loop over the semantic diagnostics. *)
Definition reconciledOf (testFilePath : string) : LoopState :=
  result (forOf (reconcileDiagnostic (expectedErrorsOf testFilePath))
                (semanticDiagnosticsOf testFilePath)
                (assertionResultsOf testFilePath, [])).

(** The Expected-Error Index after the matched entries are deleted. *)
Definition remainingOf (testFilePath : string) : ExpectedErrors.t :=
  removeFound (snd (reconciledOf testFilePath))
              (expectedErrorsOf testFilePath).

(** Neither short-circuit is taken. *)
Definition completes (testFilePath : string) : Prop :=
  configDiagnosticsOf testFilePath = []
  /\ syntacticDiagnosticsOf testFilePath = [].
End Run.

(** The identities of the keys of the index, in iteration order. *)
Definition keysOf (expectedErrors : ExpectedErrors.t) : list nat :=
  map (fun entry => Location.ref (fst entry)) expectedErrors.

(** The entry is not the target of any of the removals. *)
Definition unmatched (found : list Location.t)
    (entry : Location.t * Node.t) : bool :=
  negb (existsb (ExpectedErrors.sameKey (fst entry)) found).

(** The entries [parseErrorAssertionToLocation] builds for [nodes] when the
    next fresh identity is [next]: one per node, in the order of the set. *)
Fixpoint entriesFrom (next : nat) (nodes : list Node.t) : ExpectedErrors.t :=
  match nodes with
  | [] => []
  | node :: nodes' => (locationOf next node, node) :: entriesFrom (S next) nodes'
  end.

(** The sum of the sizes of the sets of the map. *)
Definition totalSize (assertions : Assertions.t) : nat :=
  list_sum (map (fun entry => NodeSet.size (snd entry)) assertions).

(** The map after [visit] has reached the nodes [nodes], in that order. *)
Definition collected {Assertion : AssertionEnum} (nodes : list Node.t)
    : Assertions.t :=
  fold_left (fun assertions node => visitNode node assertions) nodes [].

(** ** Sample programs and diagnostics *)

Module Sample.
Definition assertion : AssertionEnum :=
  {| Assertion_values :=
       ["expectAssignable"; "expectError"; "expectNotAssignable";
        "expectNotType"; "expectType"];
     EXPECT_ERROR := "expectError" |}.

Definition testFile : SourceFile.t := SourceFile.mk "/project/index.test.ts".
Definition helperFile : SourceFile.t := SourceFile.mk "/project/helper.ts".
Definition dependencyFile : SourceFile.t :=
  SourceFile.mk "/project/node_modules/dep/index.d.ts".

(** [expectError(add(1, 'x'))] at offsets 10 to 40 of the test file. *)
Definition expectErrorCall : Node.t :=
  Node.mk 2 (Node.CallExpression "expectError") testFile 10 10 40
    [ Node.mk 3 Node.Other testFile 10 10 21 [];
      Node.mk 4 (Node.CallExpression "add") testFile 22 22 39 [] ].

Definition testTree : Node.t :=
  Node.mk 1 Node.Other testFile 0 0 100 [expectErrorCall].

(** A file the test file imports, with an [expectType] call of its own. *)
Definition expectTypeCall : Node.t :=
  Node.mk 6 (Node.CallExpression "expectType") helperFile 5 5 30 [].

Definition helperTree : Node.t :=
  Node.mk 5 Node.Other helperFile 0 0 50 [expectTypeCall].

(** An index with an outer span listed before a span nested in it. *)
Definition outer : Location.t := Location.mk 0 "/project/index.test.ts" 10 60.
Definition inner : Location.t := Location.mk 1 "/project/index.test.ts" 20 50.
Definition nestedIndex : ExpectedErrors.t :=
  [ (outer, Node.mk 7 (Node.CallExpression "expectError") testFile 10 10 60 []);
    (inner, Node.mk 8 (Node.CallExpression "expectError") testFile 20 20 50 []) ].

(** The index of [testTree]. *)
Definition index : ExpectedErrors.t :=
  [ (Location.mk 0 "/project/index.test.ts" 10 40, expectErrorCall) ].

Definition argumentNotAssignable : DiagnosticWithLocation.t :=
  DiagnosticWithLocation.mk 2345 testFile 30 3
    "Argument of type 'string' is not assignable to parameter of type 'number'.".

Definition cannotFindName : DiagnosticWithLocation.t :=
  DiagnosticWithLocation.mk 2304 testFile 22 3 "Cannot find name 'add'.".

Definition inDependency : DiagnosticWithLocation.t :=
  DiagnosticWithLocation.mk 2304 dependencyFile 5 3 "Cannot find name 'x'.".

Definition afterTheCall : DiagnosticWithLocation.t :=
  DiagnosticWithLocation.mk 2322 testFile 70 1
    "Type 'string' is not assignable to type 'number'.".

Definition withoutLocation : Diagnostic.t :=
  Diagnostic.WithoutLocation 2318 "Cannot find global type 'Array'.".

Definition awaitOutsideAsync : DiagnosticWithLocation.t :=
  DiagnosticWithLocation.mk 1308 testFile 30 5
    "'await' expressions are only allowed within async functions.".

(** Three diagnostics with suppressible codes inside the span of
    [expectErrorCall]. *)
Definition threeInside : list DiagnosticWithLocation.t :=
  [ argumentNotAssignable;
    DiagnosticWithLocation.mk 2322 testFile 25 1
      "Type 'string' is not assignable to type 'number'.";
    DiagnosticWithLocation.mk 2554 testFile 35 1
      "Expected 2 arguments, but got 3." ].

Definition cannotReadConfig : Diagnostic.t :=
  Diagnostic.WithoutLocation 5083 "Cannot read file 'tsconfig.json'.".

Definition cannotParse : Diagnostic.t :=
  Diagnostic.WithLocation
    (DiagnosticWithLocation.mk 1005 testFile 12 1 "')' expected.").

(** A host whose collaborators return the given values; no assertion of
    another kind fails. *)
Definition host (configDiagnostics syntacticDiagnostics
                 semanticDiagnostics : list Diagnostic.t)
    (sourceFiles : list Node.t) : Host :=
  {| CompilerOptions := unit;
     TypeChecker := unit;
     AssertionResult := string;
     resolveCompilerOptions := fun _ => (tt, configDiagnostics);
     createProgram := fun _ _ =>
       TsProgram.mk unit syntacticDiagnostics semanticDiagnostics tt
                    sourceFiles;
     handleAssertions := fun _ _ => [] |}.

Definition path : string := "/project/index.test.ts".

(** The program of the test file and of the file it imports. *)
Definition program : TsProgram.t unit :=
  TsProgram.mk unit [] [] tt [testTree; helperTree].

(** Runs that reconcile a single semantic diagnostic against [testTree]. *)
Definition reporting (d : DiagnosticWithLocation.t) : Host :=
  host [] [] [Diagnostic.WithLocation d] [testTree].
End Sample.

(** ** Further vocabulary *)

(** [node] is a call whose callee text is [identifier]. *)
Definition isCallOfb (identifier : string) (node : Node.t) : bool :=
  match Node.syntaxKind node with
  | Node.CallExpression text => String.eqb text identifier
  | Node.Other => false
  end.

(** The calls of [identifier] among [nodes], in the order of [nodes]. *)
Definition callsOf (identifier : string) (nodes : list Node.t) : list Node.t :=
  filter (isCallOfb identifier) nodes.

(** The loop pushes the diagnostic to [tsdResults]. *)
Definition surfaces (expectedErrors : ExpectedErrors.t)
    (diagnostic : Diagnostic.t) : bool :=
  match verdict expectedErrors diagnostic with
  | Some preserve => true
  | _ => false
  end.

(** A located diagnostic whose file name the test
    [/[/\\]node_modules[/\\]/] does not accept and whose code is not
    globally ignored. *)
Definition reportable (diagnostic : Diagnostic.t) : bool :=
  match diagnostic with
  | Diagnostic.WithLocation d =>
      negb (NodeModules.test
              (SourceFile.fileName (DiagnosticWithLocation.file d)))
      && negb (Set_has_number ignoredDiagnostics
                              (DiagnosticWithLocation.code d))
  | Diagnostic.WithoutLocation _ _ => false
  end.

(** The fixed message of an expectation no diagnostic was matched to. *)
Definition expectedAnError : string := "Expected an error, but found none.".

(** The call [node], if it is one of a recognised identifier, is already in
    the map. *)
Definition recordedIn {Assertion : AssertionEnum} (assertions : Assertions.t)
    (node : Node.t) : Prop :=
  forall identifier,
    Node.syntaxKind node = Node.CallExpression identifier ->
    Set_has_string assertionFnNames identifier = true ->
    exists nodes, Assertions.get identifier assertions = Some nodes
                  /\ NodeSet.has nodes node = true.

(** The classifier answers the diagnostic with the entry whose key is
    [location]. *)
Definition answeredWith (expectedErrors : ExpectedErrors.t)
    (location : Location.t) (diagnostic : Diagnostic.t) : bool :=
  match verdict expectedErrors diagnostic with
  | Some (matched l) => ExpectedErrors.sameKey l location
  | _ => false
  end.

Module ExpectedErrorObject.
(** What a reader of [tsdResults] finds in the object
    [{...error, messageText}] when it looks for a position. The spread
    copies the own properties of the node, among them [pos] and [end];
    [getStart], [getEnd] and [getSourceFile] are methods of the prototype
    and are not copied, and a call expression has no own property [start]
    or [file]: reading them gives [undefined], here [None]. *)
Record t := mk {
  pos : Z;
  end_ : Z;
  start : option Z;
  file : option SourceFile.t;
  messageText : string
}.
End ExpectedErrorObject.

(** [{...error, messageText}]. *)
Definition spread (error : Node.t) (messageText : string)
    : ExpectedErrorObject.t :=
  {| ExpectedErrorObject.pos := Node.pos error;
     ExpectedErrorObject.end_ := Node.getEnd error;
     ExpectedErrorObject.start := None;
     ExpectedErrorObject.file := None;
     ExpectedErrorObject.messageText := messageText |}.

(** The objects pushed by the last loop of [tsdLite], in their order. *)
Definition expectedErrorObjects {AssertionResult : Type}
    (tsdResults : list (TsdResult AssertionResult))
    : list ExpectedErrorObject.t :=
  flat_map (fun r =>
              match r with
              | OfExpectedError error messageText => [spread error messageText]
              | _ => []
              end) tsdResults.

(** The segments of a path, split at slashes and backslashes. *)
Fixpoint segments (path : string) : list string :=
  match path with
  | EmptyString => [EmptyString]
  | String c rest =>
      if NodeModules.separator c then EmptyString :: segments rest
      else match segments rest with
           | [] => [String c EmptyString]
           | segment :: others => String c segment :: others
           end
  end.

(** The words of the specification for a dependency path: one of the
    directories of the path is named [node_modules]. *)
Definition liesUnderNodeModules (fileName : string) : bool :=
  existsb (String.eqb "node_modules") (removelast (segments fileName)).

(** ** More sample programs *)

Module Fixture.
(** [expectError(expectError(add(1, 'x')))]: a call nested in another. *)
Definition innerCall : Node.t :=
  Node.mk 4 (Node.CallExpression "expectError") Sample.testFile 22 22 50
    [ Node.mk 5 Node.Other Sample.testFile 22 22 33 [];
      Node.mk 6 (Node.CallExpression "add") Sample.testFile 34 34 49 [] ].

Definition outerCall : Node.t :=
  Node.mk 2 (Node.CallExpression "expectError") Sample.testFile 10 10 60
    [ Node.mk 3 Node.Other Sample.testFile 10 10 21 []; innerCall ].

Definition nestedTree : Node.t :=
  Node.mk 1 Node.Other Sample.testFile 0 0 100 [outerCall].

Definition insideBoth : DiagnosticWithLocation.t :=
  DiagnosticWithLocation.mk 2345 Sample.testFile 40 3
    "Argument of type 'string' is not assignable to parameter of type 'number'.".

(** A second source file, with identities of its own. *)
Definition importedTree : Node.t :=
  Node.mk 20 Node.Other Sample.helperFile 0 0 50
    [ Node.mk 21 (Node.CallExpression "expectError") Sample.helperFile 5 5 30 [] ].

Definition nested : Host :=
  Sample.host [] [] [Diagnostic.WithLocation insideBoth] [nestedTree].

(** A source file of a dependency with an [expectError] call of its own,
    and a diagnostic inside that call. *)
Definition dependencyCall : Node.t :=
  Node.mk 11 (Node.CallExpression "expectError") Sample.dependencyFile 5 5 30 [].

Definition dependencyTree : Node.t :=
  Node.mk 10 Node.Other Sample.dependencyFile 0 0 40 [dependencyCall].

Definition insideDependencyCall : DiagnosticWithLocation.t :=
  DiagnosticWithLocation.mk 2345 Sample.dependencyFile 12 3
    "Argument of type 'string' is not assignable to parameter of type 'number'.".

Definition withDependency : Host :=
  Sample.host [] [] [Diagnostic.WithLocation insideDependencyCall]
              [Sample.testTree; dependencyTree].

(** A run whose only diagnostic satisfies the only expectation. *)
Definition satisfied : Host := Sample.reporting Sample.argumentNotAssignable.

(** A run with diagnostics of every sort and no [expectError] call. *)
Definition mixed : list Diagnostic.t :=
  [ Sample.withoutLocation;
    Diagnostic.WithLocation Sample.afterTheCall;
    Diagnostic.WithLocation Sample.inDependency;
    Diagnostic.WithLocation Sample.awaitOutsideAsync;
    Diagnostic.WithLocation Sample.cannotFindName ].

Definition withoutExpectations : Host :=
  Sample.host [] [] mixed [Sample.helperTree].

(** A program without any assertion, and the program of [nestedTree]. *)
Definition plainProgram : TsProgram.t unit :=
  TsProgram.mk unit [] [] tt
    [ Node.mk 1 Node.Other Sample.helperFile 0 0 20
        [ Node.mk 2 (Node.CallExpression "add") Sample.helperFile 0 0 9 [] ] ].

Definition nestedProgram : TsProgram.t unit :=
  TsProgram.mk unit [] [] tt [nestedTree; importedTree].
End Fixture.

Module Edge.
(** An [expectError] call on a line of its own: the node begins at 104, with
    the line break before it, and the call itself at 105. *)
Definition indentedCall : Node.t :=
  Node.mk 2 (Node.CallExpression "expectError") Sample.testFile 104 105 130 [].

Definition indentedTree : Node.t :=
  Node.mk 1 Node.Other Sample.testFile 0 0 140 [indentedCall].

Definition indented : Host := Sample.host [] [] [] [indentedTree].








(** Two [expectError] calls one after the other; three diagnostics inside
    the first, none inside the second, one after both. *)
Definition secondCall : Node.t :=
  Node.mk 5 (Node.CallExpression "expectError") Sample.testFile 50 50 80 [].

Definition crowdedTree : Node.t :=
  Node.mk 1 Node.Other Sample.testFile 0 0 100
    [Sample.expectErrorCall; secondCall].

Definition afterBoth : DiagnosticWithLocation.t :=
  DiagnosticWithLocation.mk 2304 Sample.testFile 90 1 "Cannot find name 'x'.".

Definition crowded : Host :=
  Sample.host [] []
    (map Diagnostic.WithLocation Sample.threeInside
     ++ [Diagnostic.WithLocation afterBoth])
    [crowdedTree].
End Edge.

(** * Properties *)

(** ** Sets and the string test *)

Lemma Set_has_number_In (s : list Z) (x : Z) :
  Set_has_number s x = true <-> In x s.
Proof.
  unfold Set_has_number. rewrite existsb_exists. split.
  - intros [y [Hy Heq]]. apply Z.eqb_eq in Heq. now subst.
  - intros H. exists x. split; [assumption | apply Z.eqb_refl].
Qed.

Lemma Set_has_string_In (s : list string) (x : string) :
  Set_has_string s x = true <-> In x s.
Proof.
  unfold Set_has_string. rewrite existsb_exists. split.
  - intros [y [Hy Heq]]. apply String.eqb_eq in Heq. now subst.
  - intros H. exists x. split; [assumption | apply String.eqb_refl].
Qed.

(** The two code sets are disjoint. *)
Lemma suppressible_not_ignored (c : Z) :
  Set_has_number expectErrorDiagnosticCodesToIgnore c = true ->
  Set_has_number ignoredDiagnostics c = false.
Proof.
  rewrite Set_has_number_In. unfold expectErrorDiagnosticCodesToIgnore.
  intros H. simpl in H.
  repeat (destruct H as [H | H]; [subst c; reflexivity |]).
  contradiction.
Qed.

Lemma literalThenSeparator_app (literal after : string) (c : ascii) :
  NodeModules.separator c = true ->
  NodeModules.literalThenSeparator literal (literal ++ String c after)%string
    = true.
Proof.
  intros Hc. induction literal as [| p literal IH]; simpl.
  - exact Hc.
  - rewrite Ascii.eqb_refl. exact IH.
Qed.

Lemma literalThenSeparator_inv (literal s : string) :
  NodeModules.literalThenSeparator literal s = true ->
  exists c after, NodeModules.separator c = true
                  /\ s = (literal ++ String c after)%string.
Proof.
  revert s. induction literal as [| p literal IH]; intros s H.
  - destruct s as [| c s]; simpl in H; [discriminate |].
    exists c, s. split; [assumption | reflexivity].
  - destruct s as [| c s]; simpl in H; [discriminate |].
    apply andb_true_iff in H. destruct H as [Hpc H].
    apply Ascii.eqb_eq in Hpc. subst c.
    destruct (IH _ H) as [c [after [Hc Hs]]].
    exists c, after. split; [assumption |]. simpl. now rewrite Hs.
Qed.

(** The regular expression matches exactly the paths with a
    [node_modules] segment between two separators. *)
Lemma NodeModules_test_spec (fileName : string) :
  NodeModules.test fileName = true <-> underNodeModules fileName.
Proof.
  unfold underNodeModules. split.
  - induction fileName as [| c s IH]; cbn [NodeModules.test];
      [discriminate |].
    intros H. apply orb_true_iff in H. destruct H as [H | H].
    + apply andb_true_iff in H. destruct H as [Hc H].
      destruct (literalThenSeparator_inv _ _ H) as [c2 [after [Hc2 Hs]]].
      exists EmptyString, after, c, c2. subst s. auto.
    + destruct (IH H) as [before [after [s1 [s2 [H1 [H2 Hs]]]]]].
      exists (String c before), after, s1, s2. subst s. auto.
  - intros [before [after [s1 [s2 [H1 [H2 Hs]]]]]]. subst fileName.
    induction before as [| c before IH].
    + change (NodeModules.test
                (String s1 ("node_modules" ++ String s2 after)) = true).
      cbn [NodeModules.test]. rewrite H1.
      rewrite (literalThenSeparator_app "node_modules" after s2 H2).
      reflexivity.
    + change (NodeModules.test
                (String c (before
                           ++ String s1 ("node_modules" ++ String s2 after)))
              = true).
      cbn [NodeModules.test]. rewrite IH. apply orb_true_r.
Qed.

(** ** The classifier *)

Lemma inside_spec (d : DiagnosticWithLocation.t) (location : Location.t) :
  inside (SourceFile.fileName (DiagnosticWithLocation.file d))
         (DiagnosticWithLocation.start d) location = true
  <-> strictlyContains location d.
Proof.
  unfold inside, strictlyContains.
  rewrite !andb_true_iff, String.eqb_eq, Z.gtb_ltb, !Z.ltb_lt.
  intuition congruence.
Qed.

Lemma inside_false_spec (d : DiagnosticWithLocation.t) (location : Location.t) :
  inside (SourceFile.fileName (DiagnosticWithLocation.file d))
         (DiagnosticWithLocation.start d) location = false
  <-> ~ strictlyContains location d.
Proof.
  rewrite <- inside_spec. destruct (inside _ _ location);
    intuition congruence.
Qed.

Lemma scan_not_ignore (f : string) (s : Z) (E : ExpectedErrors.t) :
  scanExpectedErrors f s E <> ignore.
Proof.
  induction E as [| [location error] E IH]; simpl; [discriminate |].
  destruct (inside f s location); [discriminate | exact IH].
Qed.

Lemma scan_preserve (f : string) (s : Z) (E : ExpectedErrors.t) :
  scanExpectedErrors f s E = preserve
  <-> forall entry, In entry E -> inside f s (fst entry) = false.
Proof.
  induction E as [| [location error] E IH]; simpl.
  - split; [intros _ entry [] | reflexivity].
  - destruct (inside f s location) eqn:Hin.
    + split; [discriminate |]. intros H.
      specialize (H (location, error) (or_introl eq_refl)). simpl in H.
      congruence.
    + rewrite IH. split.
      * intros H entry [<- | Hentry]; [exact Hin | now apply H].
      * intros H entry Hentry. apply H. now right.
Qed.

Lemma scan_matched (f : string) (s : Z) (E : ExpectedErrors.t)
    (location : Location.t) :
  scanExpectedErrors f s E = matched location
  <-> exists before error after,
        E = before ++ (location, error) :: after
        /\ inside f s location = true
        /\ forall entry, In entry before -> inside f s (fst entry) = false.
Proof.
  split.
  - induction E as [| [l e] E IH]; simpl; [discriminate |].
    destruct (inside f s l) eqn:Hin.
    + intros H. injection H as ->.
      exists [], e, E. repeat split; [assumption | intros entry []].
    + intros H. destruct (IH H) as [before [error [after [HE [Hl Hb]]]]].
      exists ((l, e) :: before), error, after. subst E.
      repeat split; [assumption |].
      intros entry [<- | Hentry]; [exact Hin | now apply Hb].
  - intros [before [error [after [HE [Hl Hb]]]]]. subst E.
    induction before as [| [l e] before IH]; simpl.
    + now rewrite Hl.
    + pose proof (Hb (l, e) (or_introl eq_refl)) as Hle. simpl in Hle.
      rewrite Hle. apply IH.
      intros entry Hentry. apply Hb. now right.
Qed.

(** A location the classifier returns is a key of the index, it strictly
    contains the start of the diagnostic, and the code is suppressible. *)
Lemma isIgnoredDiagnostic_matched (d : DiagnosticWithLocation.t)
    (E : ExpectedErrors.t) (location : Location.t) :
  isIgnoredDiagnostic d E = matched location ->
  Set_has_number expectErrorDiagnosticCodesToIgnore
                 (DiagnosticWithLocation.code d) = true
  /\ strictlyContains location d
  /\ exists error, In (location, error) E.
Proof.
  unfold isIgnoredDiagnostic.
  destruct (Set_has_number ignoredDiagnostics _); [discriminate |].
  destruct (Set_has_number expectErrorDiagnosticCodesToIgnore _);
    [| discriminate].
  cbn [negb]. intros H. apply scan_matched in H.
  destruct H as [before [error [after [HE [Hl _]]]]].
  split; [reflexivity |]. split; [now apply inside_spec |].
  exists error. subst E. apply in_or_app. right. now left.
Qed.

(** *** C1 *)

(** C1. For a located diagnostic with a suppressible code, the classifier
    returns [matched location] exactly when [location] is the first entry of
    the index, in iteration order, whose file is the diagnostic's and whose
    span strictly contains the diagnostic's start (no earlier entry does);
    it returns [preserve] exactly when no entry does; it never returns
    [ignore]. *)
Theorem C1_classifier_returns_first_containing_entry
    (d : DiagnosticWithLocation.t) (E : ExpectedErrors.t) :
  Set_has_number expectErrorDiagnosticCodesToIgnore
                 (DiagnosticWithLocation.code d) = true ->
  (forall location,
      isIgnoredDiagnostic d E = matched location
      <-> exists before error after,
            E = before ++ (location, error) :: after
            /\ strictlyContains location d
            /\ forall entry, In entry before ->
                             ~ strictlyContains (fst entry) d)
  /\ (isIgnoredDiagnostic d E = preserve
      <-> forall entry, In entry E -> ~ strictlyContains (fst entry) d)
  /\ isIgnoredDiagnostic d E <> ignore.
Proof.
  intros Hcode. unfold isIgnoredDiagnostic.
  rewrite (suppressible_not_ignored _ Hcode), Hcode. cbn [negb].
  split; [| split].
  - intros location. rewrite scan_matched. split.
    + intros [before [error [after [HE [Hl Hb]]]]].
      exists before, error, after.
      split; [assumption |]. split; [now apply inside_spec |].
      intros entry Hentry. apply inside_false_spec. now apply Hb.
    + intros [before [error [after [HE [Hl Hb]]]]].
      exists before, error, after.
      split; [assumption |]. split; [now apply inside_spec |].
      intros entry Hentry. apply inside_false_spec. now apply Hb.
  - rewrite scan_preserve. split; intros H entry Hentry.
    + apply inside_false_spec. now apply H.
    + apply inside_false_spec. now apply H.
  - apply scan_not_ignore.
Qed.



Lemma isIgnoredDiagnostic_outside (d : DiagnosticWithLocation.t)
    (E : ExpectedErrors.t) :
  Set_has_number ignoredDiagnostics (DiagnosticWithLocation.code d) = false ->
  (forall entry, In entry E -> ~ strictlyContains (fst entry) d) ->
  isIgnoredDiagnostic d E = preserve.
Proof.
  intros Hign Hout. unfold isIgnoredDiagnostic. rewrite Hign.
  destruct (Set_has_number expectErrorDiagnosticCodesToIgnore _);
    [| reflexivity].
  cbn [negb]. apply scan_preserve. intros entry Hentry.
  apply inside_false_spec. now apply Hout.
Qed.

(** ** The loops of [tsdLite] *)

Lemma flat_map_cons_one {A B : Type} (f : A -> list B) (x : A) (l : list A) :
  flat_map f (x :: l) = flat_map f [x] ++ flat_map f l.
Proof. cbn. now rewrite app_nil_r. Qed.

Section Loops.
Context {Assertion : AssertionEnum} {host : Host}.

Lemma reconcileDiagnostic_verdict (E : ExpectedErrors.t)
    (rs : list (TsdResult AssertionResult)) (fs : list Location.t)
    (diagnostic : Diagnostic.t) :
  reconcileDiagnostic E (rs, fs) diagnostic
  = ((rs ++ preserved E [diagnostic], fs ++ foundLocations E [diagnostic]),
     classifierCalls [diagnostic]).
Proof.
  unfold reconcileDiagnostic, preserved, foundLocations, classifierCalls.
  destruct diagnostic as [d | c m]; cbn [flat_map verdict];
    cbn [isDiagnosticWithLocation Diagnostic.file negb].
  - destruct (NodeModules.test _).
    + unfold ret. now rewrite !app_nil_r.
    + unfold bind, called, ret. cbn [fst snd].
      destruct (isIgnoredDiagnostic d E); cbn [app];
        now rewrite ?app_nil_r.
  - unfold ret. now rewrite !app_nil_r.
Qed.

(** The loop classifies every diagnostic against the same, whole index. *)
Lemma forOf_reconcile (E : ExpectedErrors.t) (ds : list Diagnostic.t) :
  forall (rs : list (TsdResult AssertionResult)) (fs : list Location.t),
    forOf (reconcileDiagnostic E) ds (rs, fs)
    = ((rs ++ preserved E ds, fs ++ foundLocations E ds),
       classifierCalls ds).
Proof.
  induction ds as [| x ds IH]; intros rs fs.
  - cbn. unfold ret. now rewrite !app_nil_r.
  - cbn [forOf]. rewrite reconcileDiagnostic_verdict. unfold bind.
    cbn [fst snd]. rewrite IH.
    unfold preserved, foundLocations, classifierCalls.
    rewrite !(flat_map_cons_one _ x ds), !app_assoc. reflexivity.
Qed.

Lemma reportRemaining_app (E : ExpectedErrors.t) :
  forall rs : list (TsdResult AssertionResult),
    reportRemaining E rs = rs ++ map (fun entry => notFound (snd entry)) E.
Proof.
  unfold reportRemaining.
  induction E as [| e E IH]; intros rs; cbn [fold_left map].
  - now rewrite app_nil_r.
  - rewrite IH, <- app_assoc. reflexivity.
Qed.
End Loops.

(** ** Deleting from the index *)

Lemma delete_filter (key : Location.t) (E : ExpectedErrors.t) :
  NoDup (keysOf E) ->
  ExpectedErrors.delete key E
  = filter (fun entry => negb (ExpectedErrors.sameKey (fst entry) key)) E.
Proof.
  induction E as [| [k v] E IH]; intros Hnd; cbn; [reflexivity |].
  inversion Hnd as [| r rsE Hnotin Hnd']; subst.
  destruct (ExpectedErrors.sameKey k key) eqn:Hk; cbn.
  - symmetry. apply forallb_filter_id. apply forallb_forall.
    intros [k' v'] Hin. cbn. apply negb_true_iff.
    unfold ExpectedErrors.sameKey in *. apply Nat.eqb_eq in Hk.
    apply Nat.eqb_neq. intros Heq. apply Hnotin.
    unfold keysOf. apply in_map_iff. exists (k', v'). cbn.
    split; [congruence | assumption].
  - f_equal. now apply IH.
Qed.

Lemma keysOf_filter_NoDup (p : Location.t * Node.t -> bool)
    (E : ExpectedErrors.t) :
  NoDup (keysOf E) -> NoDup (keysOf (filter p E)).
Proof.
  induction E as [| e E IH]; intros Hnd; cbn; [constructor |].
  inversion Hnd as [| r rsE Hnotin Hnd']; subst.
  destruct (p e); cbn; [| now apply IH].
  constructor; [| now apply IH].
  intros Hin. apply Hnotin. unfold keysOf in *.
  apply in_map_iff in Hin. destruct Hin as [e' [He' Hin]].
  apply filter_In in Hin. apply in_map_iff. exists e'. tauto.
Qed.

(** With distinct keys, the deletions keep exactly the entries that no
    removal record names, in their order; a repeated record changes nothing. *)
Lemma removeFound_filter (found : list Location.t) :
  forall E : ExpectedErrors.t,
    NoDup (keysOf E) ->
    removeFound found E = filter (unmatched found) E.
Proof.
  unfold removeFound.
  induction found as [| key found IH]; intros E Hnd; cbn [fold_left].
  - symmetry. apply forallb_filter_id. apply forallb_forall. now intros.
  - rewrite IH.
    + rewrite (delete_filter key E Hnd).
      induction E as [| e E IHE]; [reflexivity |].
      cbn [filter]. unfold unmatched at 2. cbn [existsb].
      destruct (ExpectedErrors.sameKey (fst e) key); cbn [negb orb].
      * apply IHE. now inversion Hnd.
      * cbn [filter]. fold (unmatched found e).
        destruct (unmatched found e); [f_equal |]; apply IHE;
          now inversion Hnd.
    + rewrite (delete_filter key E Hnd). now apply keysOf_filter_NoDup.
Qed.

Lemma keysOf_injective (E : ExpectedErrors.t) (e1 e2 : Location.t * Node.t) :
  NoDup (keysOf E) -> In e1 E -> In e2 E ->
  Location.ref (fst e1) = Location.ref (fst e2) -> e1 = e2.
Proof.
  induction E as [| e E IH]; intros Hnd H1 H2 Heq; [destruct H1 |].
  inversion Hnd as [| r rsE Hnotin Hnd']; subst.
  destruct H1 as [-> | H1], H2 as [-> | H2].
  - reflexivity.
  - exfalso. apply Hnotin. unfold keysOf. apply in_map_iff.
    exists e2. split; [now symmetry | assumption].
  - exfalso. apply Hnotin. unfold keysOf. apply in_map_iff.
    exists e1. split; assumption.
  - now apply IH.
Qed.

(** ** The traversal *)

Lemma Node_induction (P : Node.t -> Prop) :
  (forall id k sf p s e children,
      Forall P children -> P (Node.mk id k sf p s e children)) ->
  forall node, P node.
Proof.
  intros H. fix IH 1. intros [id k sf p s e children]. apply H.
  revert children. fix IHchildren 1. intros [| c cs].
  - constructor.
  - constructor; [apply IH | apply IHchildren].
Qed.

Section Traversal.
Context {Assertion : AssertionEnum}.

Lemma visit_preorder (node : Node.t) :
  forall assertions,
    visit node assertions
    = fold_left (fun a n => visitNode n a) (preorder node) assertions.
Proof.
  induction node as [id k sf p s e children IH] using Node_induction.
  intros assertions. cbn [visit preorder fold_left].
  generalize (visitNode (Node.mk id k sf p s e children) assertions).
  induction IH as [| c cs Hc _ IHcs]; intros acc; [reflexivity |].
  rewrite fold_left_app, <- Hc. apply IHcs.
Qed.

Lemma extractAssertions_nodesOf {TypeChecker : Type}
    (program : TsProgram.t TypeChecker) :
  fst (extractAssertions program) = collected (nodesOf program).
Proof.
  unfold extractAssertions, nodesOf, collected. cbn [fst].
  generalize (@nil (string * NodeSet.t)).
  induction (TsProgram.getSourceFiles program) as [| sf sfs IH];
    intros acc; [reflexivity |].
  cbn [fold_left flat_map]. rewrite fold_left_app, <- visit_preorder.
  apply IH.
Qed.
End Traversal.

(** ** The maps and sets of the parser *)

Lemma Assertions_get_set_same (key : string) (v : NodeSet.t)
    (m : Assertions.t) :
  Assertions.get key (Assertions.set key v m) = Some v.
Proof.
  induction m as [| [k v'] m IH]; cbn.
  - now rewrite String.eqb_refl.
  - destruct (String.eqb k key) eqn:Hk; cbn; now rewrite Hk.
Qed.

Lemma Assertions_get_set_other (key key' : string) (v : NodeSet.t)
    (m : Assertions.t) :
  key <> key' ->
  Assertions.get key' (Assertions.set key v m) = Assertions.get key' m.
Proof.
  intros Hne. induction m as [| [k v'] m IH]; cbn.
  - destruct (String.eqb key key') eqn:Hk; [| reflexivity].
    apply String.eqb_eq in Hk. contradiction.
  - destruct (String.eqb k key) eqn:Hk; cbn.
    + apply String.eqb_eq in Hk. subst k.
      destruct (String.eqb key key') eqn:Hk'; [| reflexivity].
      apply String.eqb_eq in Hk'. contradiction.
    + destruct (String.eqb k key'); [reflexivity | exact IH].
Qed.

Lemma totalSize_set (key : string) (v : NodeSet.t) (m : Assertions.t) :
  (totalSize (Assertions.set key v m)
   + match Assertions.get key m with
     | Some old => NodeSet.size old
     | None => 0
     end
   = totalSize m + NodeSet.size v)%nat.
Proof.
  unfold totalSize, list_sum.
  induction m as [| [k v'] m IH];
    cbn [Assertions.set Assertions.get map fold_right snd].
  - lia.
  - destruct (String.eqb k key); cbn [map fold_right snd]; lia.
Qed.

Lemma countAssertions_totalSize (m : Assertions.t) :
  countAssertions m = totalSize m.
Proof.
  unfold countAssertions, totalSize.
  assert (H : forall c,
             fold_left (fun assertionCount entry =>
                          (assertionCount + NodeSet.size (snd entry))%nat) m c
             = (c + list_sum (map (fun entry => NodeSet.size (snd entry)) m))%nat).
  { unfold list_sum.
    induction m as [| e m IH]; intros c; cbn [fold_left map fold_right];
      [lia |].
    rewrite IH. lia. }
  apply H.
Qed.

Lemma NodeSet_has_spec (s : NodeSet.t) (node : Node.t) :
  NodeSet.has s node = true
  <-> exists m, In m s /\ Node.id m = Node.id node.
Proof.
  unfold NodeSet.has. rewrite existsb_exists.
  split; intros [m [Hm Hid]]; exists m; split; try assumption;
    now apply Nat.eqb_eq.
Qed.

Lemma NodeSet_add_In (node m : Node.t) (s : NodeSet.t) :
  In m (NodeSet.add node s) -> In m s \/ m = node.
Proof.
  unfold NodeSet.add. destruct (NodeSet.has s node); [now left |].
  intros H. apply in_app_or in H. destruct H as [H | [H | []]]; auto.
Qed.

Lemma NodeSet_add_has (node : Node.t) (s : NodeSet.t) :
  NodeSet.has (NodeSet.add node s) node = true.
Proof.
  unfold NodeSet.add. destruct (NodeSet.has s node) eqn:H; [exact H |].
  apply NodeSet_has_spec. exists node. split; [| reflexivity].
  apply in_or_app. right. now left.
Qed.

Lemma NodeSet_add_keeps (node node' : Node.t) (s : NodeSet.t) :
  NodeSet.has s node' = true -> NodeSet.has (NodeSet.add node s) node' = true.
Proof.
  unfold NodeSet.add. destruct (NodeSet.has s node); [trivial |].
  rewrite !NodeSet_has_spec. intros [m [Hm Hid]]. exists m.
  split; [apply in_or_app; now left | assumption].
Qed.

(** ** What the traversal collects *)

Section Extraction.
Context {Assertion : AssertionEnum}.


Lemma collect_snoc (l : list Node.t) (n : Node.t) :
  collected (l ++ [n]) = visitNode n (collected l).
Proof. unfold collected. now rewrite fold_left_app. Qed.

(** Every node of a set was visited and is a call of the set's key. *)
Lemma collect_sound (l : list Node.t) :
  forall key nodes m,
    Assertions.get key (collected l) = Some nodes -> In m nodes ->
    In m l /\ isCallOf key m.
Proof.
  induction l as [| x l IH] using rev_ind; intros key nodes m Hget Hin.
  - discriminate.
  - rewrite collect_snoc in Hget. unfold visitNode in Hget.
    assert (Hold : forall nodes', Assertions.get key (collected l) = Some nodes'
                                  -> In m nodes' ->
                                  In m (l ++ [x]) /\ isCallOf key m).
    { intros nodes' Hg Hi. destruct (IH _ _ _ Hg Hi) as [H1 H2].
      split; [apply in_or_app; now left | assumption]. }
    destruct (Node.syntaxKind x) as [identifier |] eqn:Hkind;
      [| now apply (Hold nodes)].
    destruct (Set_has_string assertionFnNames identifier);
      [| now apply (Hold nodes)].
    unfold addAssertion in Hget.
    destruct (string_dec identifier key) as [-> | Hne].
    + rewrite Assertions_get_set_same in Hget. injection Hget as <-.
      apply NodeSet_add_In in Hin. destruct Hin as [Hin | ->].
      * destruct (Assertions.get key (collected l)) as [nodes0 |] eqn:Hg;
          [now apply (Hold nodes0) | destruct Hin].
      * split; [apply in_or_app; right; now left | exact Hkind].
    + rewrite Assertions_get_set_other in Hget by assumption.
      now apply (Hold nodes).
Qed.

(** Every visited call of a recognised identifier is in the set of that
    identifier. *)
Lemma collect_complete (l : list Node.t) :
  forall n k,
    In n l -> isCallOf k n -> Set_has_string assertionFnNames k = true ->
    exists nodes, Assertions.get k (collected l) = Some nodes
                  /\ NodeSet.has nodes n = true.
Proof.
  induction l as [| x l IH] using rev_ind; intros n k Hin Hcall Hname.
  - destruct Hin.
  - rewrite collect_snoc. unfold visitNode.
    apply in_app_or in Hin. destruct Hin as [Hin | [<- | []]].
    + destruct (IH n k Hin Hcall Hname) as [nodes [Hget Hhas]].
      destruct (Node.syntaxKind x) as [identifier |];
        [| now exists nodes].
      destruct (Set_has_string assertionFnNames identifier);
        [| now exists nodes].
      unfold addAssertion.
      destruct (string_dec identifier k) as [-> | Hne].
      * rewrite Assertions_get_set_same, Hget.
        eexists. split; [reflexivity | now apply NodeSet_add_keeps].
      * rewrite Assertions_get_set_other by assumption. now exists nodes.
    + unfold isCallOf in Hcall. rewrite Hcall, Hname. unfold addAssertion.
      rewrite Assertions_get_set_same.
      eexists. split; [reflexivity | apply NodeSet_add_has].
Qed.

(** With distinct node identities, the sets hold one element per visited
    call of a recognised identifier. *)
Lemma collect_count (l : list Node.t) :
  distinctIdentities l ->
  totalSize (collected l) = List.length (filter isAssertionCall l).
Proof.
  unfold distinctIdentities.
  induction l as [| x l IH] using rev_ind; intros Hnd; [reflexivity |].
  rewrite map_app in Hnd. cbn [map] in Hnd.
  assert (Hfresh : ~ In (Node.id x) (map Node.id l)).
  { apply NoDup_remove_2 in Hnd. now rewrite app_nil_r in Hnd. }
  assert (Hnd' : NoDup (map Node.id l)).
  { apply NoDup_remove_1 in Hnd. now rewrite app_nil_r in Hnd. }
  specialize (IH Hnd').
  rewrite collect_snoc, filter_app, length_app. cbn [filter].
  unfold visitNode.
  destruct (isAssertionCall x) eqn:Hx; unfold isAssertionCall in Hx;
    destruct (Node.syntaxKind x) as [identifier |];
    try discriminate; try rewrite Hx; cbn [List.length]; try lia.
  unfold addAssertion.
  pose proof (totalSize_set identifier
                (NodeSet.add x
                   match Assertions.get identifier (collected l) with
                   | Some nodes => nodes
                   | None => []
                   end) (collected l)) as Hset.
  assert (Hadd : forall nodes,
             (forall m, In m nodes -> In m l) ->
             NodeSet.size (NodeSet.add x nodes) = S (NodeSet.size nodes)).
  { intros nodes Hsub. unfold NodeSet.add.
    destruct (NodeSet.has nodes x) eqn:Hhas.
    - apply NodeSet_has_spec in Hhas. destruct Hhas as [m [Hm Hid]].
      exfalso. apply Hfresh. rewrite <- Hid. apply in_map. now apply Hsub.
    - unfold NodeSet.size. rewrite length_app. cbn. lia. }
  destruct (Assertions.get identifier (collected l)) as [nodes0 |] eqn:Hg.
  - rewrite Hadd in Hset; [lia |].
    intros m Hm. now destruct (collect_sound l _ _ m Hg Hm).
  - rewrite Hadd in Hset;
      [unfold NodeSet.size in Hset; cbn [List.length] in Hset; lia
      | intros m []].
Qed.
End Extraction.

(** ** The Expected-Error Index as built *)

Lemma keysOf_entriesFrom (nodes : list Node.t) :
  forall next, keysOf (entriesFrom next nodes) = seq next (List.length nodes).
Proof.
  induction nodes as [| n nodes IH]; intros next; cbn; [reflexivity |].
  f_equal. apply IH.
Qed.

Lemma ExpectedErrors_set_fresh (key : Location.t) (v : Node.t)
    (m : ExpectedErrors.t) :
  ~ In (Location.ref key) (keysOf m) ->
  ExpectedErrors.set key v m = m ++ [(key, v)].
Proof.
  induction m as [| [k v'] m IH]; intros Hfresh; cbn; [reflexivity |].
  destruct (ExpectedErrors.sameKey k key) eqn:Hk.
  - exfalso. apply Hfresh. left. cbn. now apply Nat.eqb_eq.
  - f_equal. apply IH. intros Hin. apply Hfresh. now right.
Qed.

Lemma entriesFrom_app (l1 l2 : list Node.t) :
  forall next,
    entriesFrom next (l1 ++ l2)
    = entriesFrom next l1 ++ entriesFrom (next + List.length l1) l2.
Proof.
  induction l1 as [| n l1 IH]; intros next; cbn.
  - now rewrite Nat.add_0_r.
  - f_equal. rewrite IH. f_equal. f_equal. lia.
Qed.

Lemma entriesFrom_length (nodes : list Node.t) :
  forall next, List.length (entriesFrom next nodes) = List.length nodes.
Proof.
  induction nodes as [| n nodes IH]; intros next; cbn; [reflexivity |].
  now rewrite IH.
Qed.

Lemma entriesFrom_In (nodes : list Node.t) :
  forall next location error,
    In (location, error) (entriesFrom next nodes) ->
    In error nodes /\ location = locationOf (Location.ref location) error.
Proof.
  induction nodes as [| n nodes IH]; intros next location error Hin;
    [destruct Hin |].
  destruct Hin as [Heq | Hin].
  - injection Heq as <- <-. split; [now left | reflexivity].
  - destruct (IH _ _ _ Hin) as [H1 H2]. split; [now right | assumption].
Qed.

Lemma In_entriesFrom (nodes : list Node.t) (error : Node.t) :
  In error nodes ->
  forall next, exists ref, In (locationOf ref error, error)
                              (entriesFrom next nodes).
Proof.
  induction nodes as [| n nodes IH]; intros Hin next; [destruct Hin |].
  destruct Hin as [-> | Hin].
  - exists next. now left.
  - destruct (IH Hin (S next)) as [ref Href]. exists ref. now right.
Qed.

Section Index.
Context {Assertion : AssertionEnum}.

(** The loop of [parseErrorAssertionToLocation] adds one entry per node
    of the set, in the order of the set: a fresh object is never a key
    already. *)
Lemma parseErrorAssertionToLocation_entries (assertions : Assertions.t) :
  parseErrorAssertionToLocation assertions
  = match Assertions.get EXPECT_ERROR assertions with
    | None => []
    | Some nodes => entriesFrom 0 nodes
    end.
Proof.
  unfold parseErrorAssertionToLocation.
  destruct (Assertions.get EXPECT_ERROR assertions) as [nodes |];
    [| reflexivity].
  induction nodes as [| n nodes IH] using rev_ind; [reflexivity |].
  rewrite fold_left_app, IH. cbn [fold_left].
  rewrite ExpectedErrors_set_fresh.
  - rewrite entriesFrom_app, entriesFrom_length. reflexivity.
  - rewrite keysOf_entriesFrom, entriesFrom_length. cbn [Location.ref locationOf].
    rewrite in_seq. lia.
Qed.

Lemma parseErrorAssertionToLocation_NoDup (assertions : Assertions.t) :
  NoDup (keysOf (parseErrorAssertionToLocation assertions)).
Proof.
  rewrite parseErrorAssertionToLocation_entries.
  destruct (Assertions.get EXPECT_ERROR assertions) as [nodes |].
  - rewrite keysOf_entriesFrom. apply seq_NoDup.
  - constructor.
Qed.

(** Every entry of the index is an [expectError] call of the program,
    keyed by its own span. *)
Lemma expectedErrors_sound {TypeChecker : Type}
    (program : TsProgram.t TypeChecker) (location : Location.t)
    (error : Node.t) :
  In (location, error)
     (parseErrorAssertionToLocation (fst (extractAssertions program))) ->
  In error (nodesOf program) /\ isCallOf EXPECT_ERROR error
  /\ location = locationOf (Location.ref location) error.
Proof.
  rewrite parseErrorAssertionToLocation_entries, extractAssertions_nodesOf.
  destruct (Assertions.get EXPECT_ERROR (collected (nodesOf program)))
    as [nodes |] eqn:Hget; [| intros []].
  intros Hin. apply entriesFrom_In in Hin. destruct Hin as [Hin Hloc].
  destruct (collect_sound _ _ _ _ Hget Hin) as [H1 H2]. auto.
Qed.

(** Every [expectError] call of the program has an entry in the index,
    when distinct nodes have distinct identities. *)
Lemma expectedErrors_complete {TypeChecker : Type}
    (program : TsProgram.t TypeChecker) (error : Node.t) :
  distinctIdentities (nodesOf program) ->
  Set_has_string assertionFnNames EXPECT_ERROR = true ->
  In error (nodesOf program) -> isCallOf EXPECT_ERROR error ->
  exists ref,
    In (locationOf ref error, error)
       (parseErrorAssertionToLocation (fst (extractAssertions program))).
Proof.
  intros Hnd Hname Hin Hcall.
  rewrite parseErrorAssertionToLocation_entries, extractAssertions_nodesOf.
  destruct (collect_complete _ _ _ Hin Hcall Hname) as [nodes [Hget Hhas]].
  rewrite Hget. apply In_entriesFrom.
  apply NodeSet_has_spec in Hhas. destruct Hhas as [m [Hm Hid]].
  destruct (collect_sound _ _ _ _ Hget Hm) as [Hm' _].
  assert (m = error) as <-; [| assumption].
  clear - Hnd Hm' Hin Hid. unfold distinctIdentities in Hnd.
  induction (nodesOf program) as [| x l IH]; [destruct Hin |].
  cbn [map] in Hnd. inversion Hnd as [| i ids Hnotin Hnd']; subst.
  destruct Hm' as [-> | Hm'], Hin as [Heq | Hin].
  - now symmetry.
  - exfalso. apply Hnotin. rewrite Hid. now apply in_map.
  - exfalso. apply Hnotin. subst x. rewrite <- Hid. now apply in_map.
  - now apply IH.
Qed.
End Index.

(** ** The three ways [tsdLite] returns *)

Section Returns.
Context {Assertion : AssertionEnum} {host : Host}.

Lemma length_nonzero {A : Type} (l : list A) :
  negb (Nat.eqb (List.length l) 0) = true <-> l <> [].
Proof. destruct l; cbn; split; congruence. Qed.

Lemma tsdLite_configDiagnostics (testFilePath : string) :
  configDiagnosticsOf testFilePath <> [] ->
  tsdLite testFilePath
  = ({| tsdErrors := Some (configDiagnosticsOf testFilePath);
        assertionCount := 0;
        tsdResults := [] |},
     [Call.resolveCompilerOptions testFilePath]).
Proof.
  unfold configDiagnosticsOf, tsdLite. intros H.
  destruct (resolveCompilerOptions testFilePath) as [options config].
  cbn [snd] in H. apply length_nonzero in H.
  unfold bind, called, ret. cbn [fst snd]. rewrite H. reflexivity.
Qed.

Lemma tsdLite_syntacticDiagnostics (testFilePath : string) :
  configDiagnosticsOf testFilePath = [] ->
  syntacticDiagnosticsOf testFilePath <> [] ->
  tsdLite testFilePath
  = ({| tsdErrors := Some (syntacticDiagnosticsOf testFilePath);
        assertionCount := 0;
        tsdResults := [] |},
     [Call.resolveCompilerOptions testFilePath;
      Call.createProgram [testFilePath];
      Call.getSyntacticDiagnostics]).
Proof.
  unfold configDiagnosticsOf, syntacticDiagnosticsOf, programOf, tsdLite.
  intros Hconfig Hsyntax.
  destruct (resolveCompilerOptions testFilePath) as [options config].
  cbn [fst snd] in *. subst config. apply length_nonzero in Hsyntax.
  unfold bind, called, ret. cbn [fst snd List.length Nat.eqb negb].
  rewrite Hsyntax. reflexivity.
Qed.

Lemma reconciledOf_eq (testFilePath : string) :
  reconciledOf testFilePath
  = (assertionResultsOf testFilePath
     ++ preserved (expectedErrorsOf testFilePath)
                  (semanticDiagnosticsOf testFilePath),
     foundLocations (expectedErrorsOf testFilePath)
                    (semanticDiagnosticsOf testFilePath)).
Proof. unfold reconciledOf, result. now rewrite forOf_reconcile. Qed.

Lemma expectedErrorsOf_NoDup (testFilePath : string) :
  NoDup (keysOf (expectedErrorsOf testFilePath)).
Proof. apply parseErrorAssertionToLocation_NoDup. Qed.

Lemma remainingOf_eq (testFilePath : string) :
  remainingOf testFilePath
  = filter (unmatched (foundLocations (expectedErrorsOf testFilePath)
                                      (semanticDiagnosticsOf testFilePath)))
           (expectedErrorsOf testFilePath).
Proof.
  unfold remainingOf. rewrite reconciledOf_eq. cbn [snd].
  apply removeFound_filter, expectedErrorsOf_NoDup.
Qed.

(** A run that takes neither short-circuit: the results are those of
    [handleAssertions], then the preserved diagnostics in their order,
    then one failure per entry left in the index. *)
Lemma tsdLite_completes (testFilePath : string) :
  completes testFilePath ->
  tsdLite testFilePath
  = ({| assertionCount := snd (extractAssertions (programOf testFilePath));
        tsdResults :=
          fst (reconciledOf testFilePath)
          ++ map (fun entry => notFound (snd entry))
                 (remainingOf testFilePath);
        tsdErrors := None |},
     [Call.resolveCompilerOptions testFilePath;
      Call.createProgram [testFilePath];
      Call.getSyntacticDiagnostics;
      Call.getSemanticDiagnostics;
      Call.getTypeChecker;
      Call.extractAssertions;
      Call.handleAssertions;
      Call.parseErrorAssertionToLocation]
     ++ classifierCalls (semanticDiagnosticsOf testFilePath)).
Proof.
  unfold completes, remainingOf, reconciledOf, assertionResultsOf,
    expectedErrorsOf, assertionsOf, semanticDiagnosticsOf,
    configDiagnosticsOf, syntacticDiagnosticsOf, programOf, tsdLite.
  intros [Hconfig Hsyntax].
  destruct (resolveCompilerOptions testFilePath) as [options config].
  cbn [fst snd] in *. subst config.
  unfold bind at 1. unfold called at 1. cbn [fst snd List.length Nat.eqb negb].
  unfold bind at 1. unfold called at 1. cbn [fst snd].
  unfold bind at 1. unfold called at 1. cbn [fst snd].
  rewrite Hsyntax. cbn [List.length Nat.eqb negb].
  unfold bind, called, ret, result. cbn [fst snd].
  destruct (extractAssertions (createProgram [testFilePath] options))
    as [assertions count].
  rewrite !forOf_reconcile. cbn [fst snd app].
  rewrite reportRemaining_app, app_nil_r. reflexivity.
Qed.

Lemma tsdResults_completes (testFilePath : string) :
  completes testFilePath ->
  tsdResults (result (tsdLite testFilePath))
  = assertionResultsOf testFilePath
    ++ preserved (expectedErrorsOf testFilePath)
                 (semanticDiagnosticsOf testFilePath)
    ++ map (fun entry => notFound (snd entry)) (remainingOf testFilePath).
Proof.
  intros H. rewrite (tsdLite_completes _ H). unfold result.
  cbn [fst tsdResults]. rewrite reconciledOf_eq. cbn [fst].
  now rewrite app_assoc.
Qed.

(** A diagnostic is among the results exactly when the loop preserved it. *)
Lemma In_preserved (E : ExpectedErrors.t) (ds : list Diagnostic.t)
    (r : TsdResult AssertionResult) :
  In r (preserved E ds)
  <-> exists diagnostic, r = OfDiagnostic diagnostic /\ In diagnostic ds
                         /\ verdict E diagnostic = Some preserve.
Proof.
  unfold preserved. rewrite in_flat_map. split.
  - intros [x [Hx Hr]].
    destruct (verdict E x) as [[| | l] |] eqn:Hv; try contradiction.
    destruct Hr as [<- | []]. now exists x.
  - intros [x [-> [Hx Hv]]]. exists x. rewrite Hv. split; [assumption |].
    now left.
Qed.

Lemma In_foundLocations (E : ExpectedErrors.t) (ds : list Diagnostic.t)
    (location : Location.t) :
  In location (foundLocations E ds)
  <-> exists diagnostic, In diagnostic ds
                         /\ verdict E diagnostic = Some (matched location).
Proof.
  unfold foundLocations. rewrite in_flat_map. split.
  - intros [x [Hx Hl]].
    destruct (verdict E x) as [[| | l] |] eqn:Hv; try contradiction.
    destruct Hl as [<- | []]. now exists x.
  - intros [x [Hx Hv]]. exists x. rewrite Hv. split; [assumption |].
    now left.
Qed.

Lemma In_tsdResults_OfDiagnostic (testFilePath : string)
    (diagnostic : Diagnostic.t) :
  In (OfDiagnostic diagnostic) (tsdResults (result (tsdLite testFilePath))) ->
  In diagnostic (semanticDiagnosticsOf testFilePath)
  /\ verdict (expectedErrorsOf testFilePath) diagnostic = Some preserve.
Proof.
  assert (Hnil : forall l : list Diagnostic.t, l = [] \/ l <> []).
  { intros [| x l]; [now left | now right]. }
  destruct (Hnil (configDiagnosticsOf testFilePath)) as [Hconfig | Hconfig].
  2:{ rewrite (tsdLite_configDiagnostics _ Hconfig). intros []. }
  destruct (Hnil (syntacticDiagnosticsOf testFilePath))
    as [Hsyntax | Hsyntax].
  2:{ rewrite (tsdLite_syntacticDiagnostics _ Hconfig Hsyntax). intros []. }
  rewrite (tsdResults_completes _ (conj Hconfig Hsyntax)).
  intros H. apply in_app_or in H. destruct H as [H | H].
  - unfold assertionResultsOf in H. apply in_map_iff in H.
    destruct H as [r [Hr _]]. discriminate.
  - apply in_app_or in H. destruct H as [H | H].
    + apply In_preserved in H. destruct H as [x [Heq [Hx Hv]]].
      injection Heq as ->. auto.
    + apply in_map_iff in H. destruct H as [e [He _]]. discriminate.
Qed.
End Returns.

(** ** Reconciliation *)

Lemma C1_first_entry_not_innermost :
  Set_has_number expectErrorDiagnosticCodesToIgnore
    (DiagnosticWithLocation.code Sample.argumentNotAssignable) = true
  /\ isIgnoredDiagnostic Sample.argumentNotAssignable Sample.nestedIndex
     = matched Sample.outer
  /\ strictlyContains Sample.inner Sample.argumentNotAssignable.
Proof.
  split; [reflexivity |]. split.
  - apply (proj1 (C1_classifier_returns_first_containing_entry
                    Sample.argumentNotAssignable Sample.nestedIndex eq_refl)).
    eexists [], _, _. split; [reflexivity |].
    split; [| intros entry []].
    unfold strictlyContains. cbn. repeat split; lia.
  - unfold strictlyContains. cbn. repeat split; lia.
Defined.

Lemma verdict_matched (E : ExpectedErrors.t) (diagnostic : Diagnostic.t)
    (location : Location.t) :
  verdict E diagnostic = Some (matched location)
  <-> exists d,
        diagnostic = Diagnostic.WithLocation d
        /\ NodeModules.test
             (SourceFile.fileName (DiagnosticWithLocation.file d)) = false
        /\ isIgnoredDiagnostic d E = matched location.
Proof.
  unfold verdict. split.
  - destruct diagnostic as [d | c m]; [| discriminate].
    destruct (NodeModules.test _) eqn:Htest; [discriminate |].
    intros H. injection H as H. now exists d.
  - intros [d [-> [Htest H]]]. now rewrite Htest, H.
Qed.

Lemma unmatched_spec (found : list Location.t) (entry : Location.t * Node.t) :
  unmatched found entry = true
  <-> forall key, In key found ->
                  Location.ref (fst entry) <> Location.ref key.
Proof.
  unfold unmatched. rewrite negb_true_iff. split.
  - intros H key Hkey Heq.
    assert (existsb (ExpectedErrors.sameKey (fst entry)) found = true);
      [| congruence].
    apply existsb_exists. exists key. split; [assumption |].
    now apply Nat.eqb_eq.
  - intros H. destruct (existsb _ found) eqn:Hex; [| reflexivity].
    apply existsb_exists in Hex. destruct Hex as [key [Hkey Heq]].
    apply Nat.eqb_eq in Heq. now destruct (H key Hkey).
Qed.

Section Reconciliation.
Context {Assertion : AssertionEnum} {host : Host}.

Lemma filter_isOfExpectedError_tsdResults (testFilePath : string) :
  completes testFilePath ->
  filter isOfExpectedError (tsdResults (result (tsdLite testFilePath)))
  = map (fun entry => notFound (snd entry)) (remainingOf testFilePath).
Proof.
  intros H. rewrite (tsdResults_completes _ H), !filter_app.
  assert (H1 : filter isOfExpectedError (assertionResultsOf testFilePath)
               = []).
  { unfold assertionResultsOf.
    induction (handleAssertions _ _) as [| r rs IH]; [reflexivity |].
    exact IH. }
  assert (H2 : forall E ds,
             filter isOfExpectedError
               (preserved (AssertionResult := AssertionResult) E ds) = []).
  { intros E ds. unfold preserved.
    induction ds as [| x ds IH]; [reflexivity |].
    cbn [flat_map]. rewrite filter_app, IH, app_nil_r.
    now destruct (verdict E x) as [[| | l] |]. }
  rewrite H1, H2. cbn [app].
  induction (remainingOf testFilePath) as [| e E IH]; [reflexivity |].
  cbn. now rewrite IH.
Qed.

Lemma expectedErrorObjects_filter {AssertionResult : Type}
    (rs : list (TsdResult AssertionResult)) :
  expectedErrorObjects rs = expectedErrorObjects (filter isOfExpectedError rs).
Proof.
  unfold expectedErrorObjects.
  induction rs as [| r rs IH]; [reflexivity |].
  destruct r; cbn [filter isOfExpectedError flat_map]; now rewrite IH.
Qed.

(** *** C2 *)

(** C2 (amended). After a run that reconciles (no short-circuit): an entry
    of the Expected-Error Index that a diagnostic was matched to is no
    longer in the index; an entry that no diagnostic was matched to is still
    there; the failures with the fixed message in the result list are
    exactly one per remaining entry, in the order of the index, each for the
    node of its entry. The object pushed for an entry is the copy of the
    own properties of the entry's node with the fixed message: it holds the
    node's [pos] and its [end], which is the end of the entry's span, and
    has no [start] and no [file] of its own. The key of the entry, not the
    pushed object, holds the file name and the start of the assertion. *)
Theorem C2_matched_removed_remaining_reported_once (testFilePath : string) :
  completes testFilePath ->
  (forall location d,
      In (Diagnostic.WithLocation d) (semanticDiagnosticsOf testFilePath) ->
      NodeModules.test
        (SourceFile.fileName (DiagnosticWithLocation.file d)) = false ->
      isIgnoredDiagnostic d (expectedErrorsOf testFilePath)
        = matched location ->
      forall entry, In entry (remainingOf testFilePath) ->
                    Location.ref (fst entry) <> Location.ref location)
  /\ (forall entry,
         In entry (expectedErrorsOf testFilePath) ->
         (forall d,
             In (Diagnostic.WithLocation d)
                (semanticDiagnosticsOf testFilePath) ->
             NodeModules.test
               (SourceFile.fileName (DiagnosticWithLocation.file d))
               = false ->
             isIgnoredDiagnostic d (expectedErrorsOf testFilePath)
               <> matched (fst entry)) ->
         In entry (remainingOf testFilePath))
  /\ (forall entry, In entry (remainingOf testFilePath) ->
                    In entry (expectedErrorsOf testFilePath))
  /\ NoDup (keysOf (remainingOf testFilePath))
  /\ filter isOfExpectedError (tsdResults (result (tsdLite testFilePath)))
     = map (fun entry =>
              OfExpectedError (snd entry)
                              "Expected an error, but found none.")
           (remainingOf testFilePath)
  /\ expectedErrorObjects (tsdResults (result (tsdLite testFilePath)))
     = map (fun entry =>
              spread (snd entry) "Expected an error, but found none.")
           (remainingOf testFilePath)
  /\ (forall location error,
         In (location, error) (remainingOf testFilePath) ->
         Location.fileName location
           = SourceFile.fileName (Node.getSourceFile error)
         /\ Location.start location = Node.getStart error
         /\ Location.end_ location = Node.getEnd error)
  /\ (forall object,
         In object
            (expectedErrorObjects
               (tsdResults (result (tsdLite testFilePath)))) ->
         exists location error,
           In (location, error) (remainingOf testFilePath)
           /\ ExpectedErrorObject.messageText object
              = "Expected an error, but found none."
           /\ ExpectedErrorObject.end_ object = Location.end_ location
           /\ ExpectedErrorObject.pos object = Node.pos error
           /\ ExpectedErrorObject.start object = None
           /\ ExpectedErrorObject.file object = None).
Proof.
  intros Hrun.
  assert (Hobjects :
            expectedErrorObjects (tsdResults (result (tsdLite testFilePath)))
            = map (fun entry =>
                     spread (snd entry) "Expected an error, but found none.")
                  (remainingOf testFilePath)).
  { rewrite expectedErrorObjects_filter.
    rewrite (filter_isOfExpectedError_tsdResults _ Hrun).
    unfold expectedErrorObjects, notFound.
    induction (remainingOf testFilePath) as [| e E IH]; [reflexivity |].
    cbn [map flat_map app]. now rewrite IH. }
  assert (Hspan : forall location error,
             In (location, error) (remainingOf testFilePath) ->
             Location.fileName location
               = SourceFile.fileName (Node.getSourceFile error)
             /\ Location.start location = Node.getStart error
             /\ Location.end_ location = Node.getEnd error).
  { intros location error Hentry. rewrite remainingOf_eq in Hentry.
    apply filter_In in Hentry. destruct Hentry as [Hentry _].
    apply expectedErrors_sound in Hentry. destruct Hentry as [_ [_ ->]].
    repeat split. }
  assert (Hcopy : forall object,
             In object
                (expectedErrorObjects
                   (tsdResults (result (tsdLite testFilePath)))) ->
             exists location error,
               In (location, error) (remainingOf testFilePath)
               /\ ExpectedErrorObject.messageText object
                  = "Expected an error, but found none."
               /\ ExpectedErrorObject.end_ object = Location.end_ location
               /\ ExpectedErrorObject.pos object = Node.pos error
               /\ ExpectedErrorObject.start object = None
               /\ ExpectedErrorObject.file object = None).
  { intros object Hobject. rewrite Hobjects in Hobject.
    apply in_map_iff in Hobject.
    destruct Hobject as [[location error] [<- Hentry]].
    exists location, error. split; [assumption |].
    destruct (Hspan _ _ Hentry) as [_ [_ Hend]].
    cbn. rewrite Hend. repeat split. }
  revert Hobjects Hspan Hcopy.
  rewrite remainingOf_eq.
  set (E := expectedErrorsOf testFilePath).
  set (ds := semanticDiagnosticsOf testFilePath).
  intros Hobjects Hspan Hcopy.
  split; [| split; [| split; [| split; [| split; [| split; [| split]]]]]];
    [| | | | | exact Hobjects | exact Hspan | exact Hcopy].
  - intros location d Hd Htest Hmatched entry Hentry.
    apply filter_In in Hentry. destruct Hentry as [_ Hun].
    apply (proj1 (unmatched_spec _ _) Hun).
    apply In_foundLocations. exists (Diagnostic.WithLocation d).
    split; [assumption |]. apply verdict_matched. now exists d.
  - intros entry Hentry Hnone. apply filter_In. split; [assumption |].
    apply unmatched_spec. intros key Hkey Heq.
    apply In_foundLocations in Hkey. destruct Hkey as [x [Hx Hv]].
    apply verdict_matched in Hv. destruct Hv as [d [-> [Htest Hm]]].
    destruct (isIgnoredDiagnostic_matched _ _ _ Hm)
      as [_ [_ [error Herror]]].
    assert (Hsame : entry = (key, error)).
    { apply (keysOf_injective E); try assumption.
      apply expectedErrorsOf_NoDup. }
    apply (Hnone d Hx Htest). now rewrite Hsame.
  - intros entry Hentry. now apply filter_In in Hentry.
  - apply keysOf_filter_NoDup, expectedErrorsOf_NoDup.
  - subst E ds. rewrite <- remainingOf_eq.
    now apply filter_isOfExpectedError_tsdResults.
Qed.
End Reconciliation.

Lemma C2_unmatched_expectation_reported_once :
  completes
    (host := Sample.host [] [] [Diagnostic.WithLocation Sample.cannotFindName]
                         [Sample.testTree]) Sample.path
  /\ filter isOfExpectedError
       (tsdResults
          (result
             (@tsdLite Sample.assertion
                (Sample.host [] []
                   [Diagnostic.WithLocation Sample.cannotFindName]
                   [Sample.testTree]) Sample.path)))
     = [OfExpectedError Sample.expectErrorCall
                        "Expected an error, but found none."].
Proof.
  assert (Hrun : completes
                   (host := Sample.host [] []
                      [Diagnostic.WithLocation Sample.cannotFindName]
                      [Sample.testTree]) Sample.path).
  { split; reflexivity. }
  split; [exact Hrun |].
  destruct (C2_matched_removed_remaining_reported_once
              (Assertion := Sample.assertion) Sample.path Hrun)
    as (_ & _ & _ & _ & Hresults & _).
  rewrite Hresults. reflexivity.
Defined.

(** ** Short-circuits, and the diagnostics the loop skips *)

Section Gates.
Context {Assertion : AssertionEnum} {host : Host}.

(** *** C4 *)

(** C4. With a non-empty list of configuration diagnostics, [tsdLite]
    returns them as [tsdErrors], with [assertionCount] 0 and no result,
    after the single call of [resolveCompilerOptions]. Otherwise, with a
    non-empty list of syntactic diagnostics, it returns those in the same
    shape after creating the program and asking for them. In both cases
    the calls made include neither [extractAssertions], nor
    [handleAssertions], nor the classifier, whatever the program holds. *)
Theorem C4_short_circuit_gates (testFilePath : string) :
  (configDiagnosticsOf testFilePath <> [] ->
   tsdLite testFilePath
   = ({| tsdErrors := Some (configDiagnosticsOf testFilePath);
         assertionCount := 0;
         tsdResults := [] |},
      [Call.resolveCompilerOptions testFilePath]))
  /\ (configDiagnosticsOf testFilePath = [] ->
      syntacticDiagnosticsOf testFilePath <> [] ->
      tsdLite testFilePath
      = ({| tsdErrors := Some (syntacticDiagnosticsOf testFilePath);
            assertionCount := 0;
            tsdResults := [] |},
         [Call.resolveCompilerOptions testFilePath;
          Call.createProgram [testFilePath];
          Call.getSyntacticDiagnostics])).
Proof.
  split.
  - apply tsdLite_configDiagnostics.
  - apply tsdLite_syntacticDiagnostics.
Qed.



(** *** C6 *)

(** C6 (amended). A semantic diagnostic without a file is skipped by the
    loop, whatever its code: the state of the loop is unchanged (so no
    expectation is satisfied by it), the classifier is not called, and the
    diagnostic is in the results of no run. *)
Theorem C6_diagnostic_without_location_is_dropped
    (code : Z) (messageText : string) :
  (forall E state,
      reconcileDiagnostic E state
        (Diagnostic.WithoutLocation code messageText)
      = (state, []))
  /\ forall testFilePath,
       ~ In (OfDiagnostic (Diagnostic.WithoutLocation code messageText))
            (tsdResults (result (tsdLite testFilePath))).
Proof.
  split.
  - intros E [rs fs]. reflexivity.
  - intros testFilePath Hin. apply In_tsdResults_OfDiagnostic in Hin.
    destruct Hin as [_ Hv]. discriminate.
Qed.

(** *** C8 *)

End Gates.

Lemma C4_gates_ignore_the_assertions :
  (configDiagnosticsOf
     (host := Sample.host [Sample.cannotReadConfig] [] [] [Sample.testTree])
     Sample.path <> []
   /\ tsdLite (Assertion := Sample.assertion)
        (host := Sample.host [Sample.cannotReadConfig] [] [] [Sample.testTree])
        Sample.path
      = ({| tsdErrors := Some [Sample.cannotReadConfig];
            assertionCount := 0;
            tsdResults := [] |},
         [Call.resolveCompilerOptions Sample.path]))
  /\ (configDiagnosticsOf
        (host := Sample.host [] [Sample.cannotParse] [] [Sample.testTree])
        Sample.path = []
      /\ syntacticDiagnosticsOf
           (host := Sample.host [] [Sample.cannotParse] [] [Sample.testTree])
           Sample.path <> []
      /\ tsdLite (Assertion := Sample.assertion)
           (host := Sample.host [] [Sample.cannotParse] [] [Sample.testTree])
           Sample.path
         = ({| tsdErrors := Some [Sample.cannotParse];
               assertionCount := 0;
               tsdResults := [] |},
            [Call.resolveCompilerOptions Sample.path;
             Call.createProgram [Sample.path];
             Call.getSyntacticDiagnostics])).
Proof.
  split.
  - split; [discriminate |].
    apply (proj1 (C4_short_circuit_gates
                    (Assertion := Sample.assertion)
                    (host := Sample.host [Sample.cannotReadConfig] [] []
                                         [Sample.testTree])
                    Sample.path)).
    discriminate.
  - split; [reflexivity |]. split; [discriminate |].
    apply (proj2 (C4_short_circuit_gates
                    (Assertion := Sample.assertion)
                    (host := Sample.host [] [Sample.cannotParse] []
                                         [Sample.testTree])
                    Sample.path)).
    + reflexivity.
    + discriminate.
Defined.

Lemma C6_unlocated_diagnostic_not_surfaced :
  Set_has_number ignoredDiagnostics (Diagnostic.code Sample.withoutLocation)
    = false
  /\ completes (host := Sample.host [] [] [Sample.withoutLocation]
                                    [Sample.testTree]) Sample.path
  /\ In Sample.withoutLocation
        (semanticDiagnosticsOf
           (host := Sample.host [] [] [Sample.withoutLocation]
                                [Sample.testTree]) Sample.path)
  /\ ~ In (OfDiagnostic Sample.withoutLocation)
          (tsdResults
             (result
                (tsdLite (Assertion := Sample.assertion)
                   (host := Sample.host [] [] [Sample.withoutLocation]
                                        [Sample.testTree]) Sample.path))).
Proof.
  split; [reflexivity |]. split; [split; reflexivity |].
  split; [now left |].
  vm_compute. intros [H | []]. discriminate.
Qed.


(** ** Which diagnostics surface *)

Lemma isIgnoredDiagnostic_insert (d : DiagnosticWithLocation.t)
    (E1 E2 : ExpectedErrors.t) (entry : Location.t * Node.t) :
  ~ strictlyContains (fst entry) d ->
  isIgnoredDiagnostic d (E1 ++ entry :: E2) = isIgnoredDiagnostic d (E1 ++ E2).
Proof.
  intros Hout. apply inside_false_spec in Hout. unfold isIgnoredDiagnostic.
  destruct (Set_has_number ignoredDiagnostics _); [reflexivity |].
  destruct (negb _); [reflexivity |].
  induction E1 as [| [l e] E1 IH]; cbn [app scanExpectedErrors].
  - destruct entry as [l e]. cbn [fst] in Hout. now rewrite Hout.
  - now rewrite IH.
Qed.

Lemma strictlyContains_locationOf (ref : nat) (node : Node.t)
    (d : DiagnosticWithLocation.t) :
  strictlyContains (locationOf ref node) d <-> spanContains node d.
Proof. reflexivity. Qed.

Section Surfacing.
Context {Assertion : AssertionEnum} {host : Host}.

Lemma preserved_in_tsdResults (testFilePath : string)
    (d : DiagnosticWithLocation.t) :
  completes testFilePath ->
  In (Diagnostic.WithLocation d) (semanticDiagnosticsOf testFilePath) ->
  NodeModules.test (SourceFile.fileName (DiagnosticWithLocation.file d))
    = false ->
  isIgnoredDiagnostic d (expectedErrorsOf testFilePath) = preserve ->
  In (OfDiagnostic (Diagnostic.WithLocation d))
     (tsdResults (result (tsdLite testFilePath))).
Proof.
  intros Hrun Hd Htest Hpreserve. rewrite (tsdResults_completes _ Hrun).
  apply in_or_app. right. apply in_or_app. left.
  apply In_preserved. exists (Diagnostic.WithLocation d).
  split; [reflexivity |]. split; [assumption |].
  unfold verdict. now rewrite Htest, Hpreserve.
Qed.

(** *** C3 *)


Lemma outside_every_expectation (testFilePath : string)
    (d : DiagnosticWithLocation.t) :
  (forall node,
      In node (nodesOf (programOf testFilePath)) ->
      isCallOf EXPECT_ERROR node -> ~ spanContains node d) ->
  forall entry, In entry (expectedErrorsOf testFilePath) ->
                ~ strictlyContains (fst entry) d.
Proof.
  intros Hout [location error] Hentry.
  apply expectedErrors_sound in Hentry.
  destruct Hentry as [Hin [Hcall ->]]. cbn [fst].
  rewrite strictlyContains_locationOf. now apply Hout.
Qed.

(** *** C7 *)

(** C7 (amended). In a run that reconciles, a located semantic diagnostic
    whose code is not globally ignored, whose file is not under
    [node_modules], and whose start no [expectError] call of the program
    strictly contains, is in the results. And an index entry whose span does
    not strictly contain the start of a diagnostic does not change how the
    classifier answers for it, wherever the entry stands in the index. *)
Theorem C7_diagnostic_outside_expectations_surfaces (testFilePath : string)
    (d : DiagnosticWithLocation.t) :
  completes testFilePath ->
  In (Diagnostic.WithLocation d) (semanticDiagnosticsOf testFilePath) ->
  Set_has_number ignoredDiagnostics (DiagnosticWithLocation.code d) = false ->
  NodeModules.test (SourceFile.fileName (DiagnosticWithLocation.file d))
    = false ->
  (forall node,
      In node (nodesOf (programOf testFilePath)) ->
      isCallOf EXPECT_ERROR node -> ~ spanContains node d) ->
  In (OfDiagnostic (Diagnostic.WithLocation d))
     (tsdResults (result (tsdLite testFilePath)))
  /\ forall E1 E2 entry,
       ~ strictlyContains (fst entry) d ->
       isIgnoredDiagnostic d (E1 ++ entry :: E2)
       = isIgnoredDiagnostic d (E1 ++ E2).
Proof.
  intros Hrun Hd Hignored Htest Hout. split.
  - apply preserved_in_tsdResults; try assumption.
    apply isIgnoredDiagnostic_outside; [assumption |].
    now apply outside_every_expectation.
  - intros E1 E2 entry. apply isIgnoredDiagnostic_insert.
Qed.

(** *** C5 *)

End Surfacing.

(** ** Extraction over all source files *)

Section Counting.
Context {Assertion : AssertionEnum}.

(** *** C10 *)

(** C10. [extractAssertions] visits every source file of the program:
    a call whose callee text is a recognised assertion identifier, in any
    source file, is in the set of that identifier; [assertionCount] is the
    sum of the sizes of the sets; and when distinct nodes have distinct
    identities it is the number of such calls over all source files. *)
Theorem C10_extraction_covers_every_source_file {TypeChecker : Type}
    (program : TsProgram.t TypeChecker) :
  (forall sourceFile node identifier,
      In sourceFile (TsProgram.getSourceFiles program) ->
      In node (preorder sourceFile) ->
      isCallOf identifier node ->
      In identifier Assertion_values ->
      exists nodes,
        Assertions.get identifier (fst (extractAssertions program))
          = Some nodes
        /\ NodeSet.has nodes node = true)
  /\ snd (extractAssertions program)
     = totalSize (fst (extractAssertions program))
  /\ (distinctIdentities (nodesOf program) ->
      snd (extractAssertions program)
      = List.length (filter isAssertionCall (nodesOf program))).
Proof.
  split; [| split].
  - intros sourceFile node identifier Hfile Hnode Hcall Hname.
    rewrite extractAssertions_nodesOf.
    apply collect_complete; [| assumption | now apply Set_has_string_In].
    unfold nodesOf. apply in_flat_map. now exists sourceFile.
  - unfold extractAssertions. cbn [fst snd].
    apply countAssertions_totalSize.
  - intros Hids.
    rewrite <- (collect_count _ Hids), <- extractAssertions_nodesOf.
    unfold extractAssertions. cbn [fst snd].
    apply countAssertions_totalSize.
Qed.
End Counting.

(** ** The properties on the sample runs *)

Lemma Sample_testTree_identities :
  distinctIdentities (flat_map preorder [Sample.testTree]).
Proof.
  unfold distinctIdentities. cbn.
  repeat constructor; cbn; intuition discriminate.
Qed.

Lemma Sample_testTree_expectations (d : DiagnosticWithLocation.t) :
  ~ spanContains Sample.expectErrorCall d ->
  forall node,
    In node (flat_map preorder [Sample.testTree]) ->
    isCallOf (EXPECT_ERROR (AssertionEnum := Sample.assertion)) node ->
    ~ spanContains node d.
Proof.
  intros Hout node Hin Hcall. cbn in Hin.
  destruct Hin as [<- | [<- | [<- | [<- | []]]]];
    try exact Hout; unfold isCallOf in Hcall; cbn in Hcall; discriminate.
Qed.




Lemma C7_dependency_diagnostic_outside_spans_not_surfaced :
  completes (host := Sample.reporting Sample.inDependency) Sample.path
  /\ In (Diagnostic.WithLocation Sample.inDependency)
        (semanticDiagnosticsOf (host := Sample.reporting Sample.inDependency)
                               Sample.path)
  /\ Set_has_number ignoredDiagnostics
       (DiagnosticWithLocation.code Sample.inDependency) = false
  /\ (forall node,
         In node (nodesOf (programOf
                             (host := Sample.reporting Sample.inDependency)
                             Sample.path)) ->
         isCallOf (EXPECT_ERROR (AssertionEnum := Sample.assertion)) node ->
         ~ spanContains node Sample.inDependency)
  /\ ~ In (OfDiagnostic (Diagnostic.WithLocation Sample.inDependency))
          (tsdResults
             (result
                (tsdLite (Assertion := Sample.assertion)
                   (host := Sample.reporting Sample.inDependency)
                   Sample.path))).
Proof.
  split; [split; reflexivity |]. split; [now left |].
  split; [reflexivity |]. split.
  - apply Sample_testTree_expectations. intros [Hfile _]. discriminate.
  - vm_compute. intros [H | []]. discriminate.
Qed.

Lemma C7_diagnostic_after_the_call_surfaces :
  ~ spanContains Sample.expectErrorCall Sample.afterTheCall
  /\ In (OfDiagnostic (Diagnostic.WithLocation Sample.afterTheCall))
        (tsdResults
           (result
              (tsdLite (Assertion := Sample.assertion)
                 (host := Sample.reporting Sample.afterTheCall)
                 Sample.path))).
Proof.
  assert (Hout : ~ spanContains Sample.expectErrorCall Sample.afterTheCall).
  { unfold spanContains. cbn. lia. }
  split; [exact Hout |].
  apply (C7_diagnostic_outside_expectations_surfaces
           (Assertion := Sample.assertion)
           (host := Sample.reporting Sample.afterTheCall)
           Sample.path Sample.afterTheCall).
  - split; reflexivity.
  - now left.
  - reflexivity.
  - reflexivity.
  - now apply Sample_testTree_expectations.
Defined.

Lemma C10_call_in_imported_file_is_counted :
  distinctIdentities (nodesOf Sample.program)
  /\ snd (extractAssertions (Assertion := Sample.assertion) Sample.program)
     = 2%nat
  /\ exists nodes,
       Assertions.get "expectType"
         (fst (extractAssertions (Assertion := Sample.assertion)
                                 Sample.program)) = Some nodes
       /\ NodeSet.has nodes Sample.expectTypeCall = true.
Proof.
  assert (Hids : distinctIdentities (nodesOf Sample.program)).
  { unfold distinctIdentities. cbn.
    repeat constructor; cbn; intuition discriminate. }
  destruct (C10_extraction_covers_every_source_file
              (Assertion := Sample.assertion) Sample.program)
    as (Hcovers & _ & Hcount).
  split; [exact Hids |]. split.
  - rewrite (Hcount Hids). reflexivity.
  - apply (Hcovers Sample.helperTree Sample.expectTypeCall "expectType").
    + cbn. auto.
    + cbn. auto.
    + reflexivity.
    + cbn. auto 10.
Defined.

(** * Further properties *)

(** ** The map of extracted assertions *)

Lemma Assertions_set_same_value (key : string) (v : NodeSet.t)
    (m : Assertions.t) :
  Assertions.get key m = Some v -> Assertions.set key v m = m.
Proof.
  induction m as [| [k v'] m IH]; cbn; [discriminate |].
  destruct (String.eqb k key).
  - now intros [= ->].
  - intros H. f_equal. now apply IH.
Qed.

Lemma Assertions_get_None_keys (key : string) (m : Assertions.t) :
  Assertions.get key m = None <-> ~ In key (map fst m).
Proof.
  induction m as [| [k v] m IH]; cbn.
  - tauto.
  - destruct (String.eqb k key) eqn:Hk.
    + apply String.eqb_eq in Hk. split; [discriminate | tauto].
    + apply String.eqb_neq in Hk. tauto.
Qed.

Lemma Assertions_set_keys (key : string) (v : NodeSet.t) (m : Assertions.t) :
  map fst (Assertions.set key v m)
  = match Assertions.get key m with
    | Some _ => map fst m
    | None => map fst m ++ [key]
    end.
Proof.
  induction m as [| [k v'] m IH]; cbn; [reflexivity |].
  destruct (String.eqb k key); cbn; [reflexivity |].
  rewrite IH. now destruct (Assertions.get key m).
Qed.

Lemma Assertions_get_totalSize (key : string) (nodes : NodeSet.t)
    (m : Assertions.t) :
  Assertions.get key m = Some nodes ->
  (NodeSet.size nodes <= totalSize m)%nat.
Proof.
  unfold totalSize, list_sum.
  induction m as [| [k v] m IH]; cbn [Assertions.get map fold_right snd];
    [discriminate |].
  destruct (String.eqb k key).
  - intros [= ->]. lia.
  - intros H. specialize (IH H). lia.
Qed.

Lemma NodeSet_add_NoDup (node : Node.t) (s : NodeSet.t) :
  NoDup (map Node.id s) -> NoDup (map Node.id (NodeSet.add node s)).
Proof.
  intros Hnd. unfold NodeSet.add.
  destruct (NodeSet.has s node) eqn:Hhas; [assumption |].
  rewrite map_app. cbn [map]. apply NoDup_app; [assumption | |].
  - repeat constructor. intros [].
  - intros i Hi [<- | []]. apply in_map_iff in Hi.
    destruct Hi as [m [Hid Hm]].
    assert (NodeSet.has s node = true); [| congruence].
    apply NodeSet_has_spec. now exists m.
Qed.

Lemma NodeSet_add_nonempty (node : Node.t) (s : NodeSet.t) :
  NodeSet.add node s <> [].
Proof.
  unfold NodeSet.add. destruct (NodeSet.has s node) eqn:Hhas.
  - intros ->. discriminate.
  - destruct s; discriminate.
Qed.

Lemma isCallOfb_spec (identifier : string) (node : Node.t) :
  isCallOfb identifier node = true <-> isCallOf identifier node.
Proof.
  unfold isCallOfb, isCallOf. destruct (Node.syntaxKind node) as [text |].
  - rewrite String.eqb_eq. split; congruence.
  - split; discriminate.
Qed.

Section Collected.
Context {Assertion : AssertionEnum}.

(** What every set of the map satisfies. *)
Lemma collect_sets (l : list Node.t) :
  forall key nodes,
    Assertions.get key (collected l) = Some nodes ->
    Set_has_string assertionFnNames key = true
    /\ nodes <> []
    /\ NoDup (map Node.id nodes).
Proof.
  induction l as [| x l IH] using rev_ind; intros key nodes Hget.
  - discriminate.
  - rewrite collect_snoc in Hget. unfold visitNode in Hget.
    destruct (Node.syntaxKind x) as [identifier |]; [| now apply IH].
    destruct (Set_has_string assertionFnNames identifier) eqn:Hname;
      [| now apply IH].
    unfold addAssertion in Hget.
    destruct (string_dec identifier key) as [-> | Hne].
    + rewrite Assertions_get_set_same in Hget. injection Hget as <-.
      split; [assumption |]. split; [apply NodeSet_add_nonempty |].
      apply NodeSet_add_NoDup.
      destruct (Assertions.get key (collected l)) as [nodes0 |] eqn:Hg.
      * now destruct (IH _ _ Hg) as [_ [_ H]].
      * constructor.
    + rewrite Assertions_get_set_other in Hget by assumption.
      now apply IH.
Qed.

Lemma collect_keys (l : list Node.t) : NoDup (map fst (collected l)).
Proof.
  induction l as [| x l IH] using rev_ind; [constructor |].
  rewrite collect_snoc. unfold visitNode.
  destruct (Node.syntaxKind x) as [identifier |]; [| assumption].
  destruct (Set_has_string assertionFnNames identifier); [| assumption].
  unfold addAssertion. rewrite Assertions_set_keys.
  destruct (Assertions.get identifier (collected l)) eqn:Hg; [assumption |].
  apply NoDup_app; [assumption | repeat constructor; intros [] |].
  intros k Hk [<- | []]. now apply Assertions_get_None_keys in Hg.
Qed.

(** With distinct identities, the set of a recognised identifier is the
    list of its calls, in the order they were reached. *)
Lemma collect_callsOf (l : list Node.t) :
  distinctIdentities l ->
  forall key,
    Set_has_string assertionFnNames key = true ->
    Assertions.get key (collected l)
    = match callsOf key l with
      | [] => None
      | calls => Some calls
      end.
Proof.
  unfold distinctIdentities.
  induction l as [| x l IH] using rev_ind; intros Hnd key Hname;
    [reflexivity |].
  rewrite map_app in Hnd. cbn [map] in Hnd.
  assert (Hfresh : ~ In (Node.id x) (map Node.id l)).
  { apply NoDup_remove_2 in Hnd. now rewrite app_nil_r in Hnd. }
  assert (Hnd' : NoDup (map Node.id l)).
  { apply NoDup_remove_1 in Hnd. now rewrite app_nil_r in Hnd. }
  specialize (IH Hnd' key Hname).
  rewrite collect_snoc. unfold callsOf in *. rewrite filter_app.
  cbn [filter]. unfold visitNode, isCallOfb at 2.
  destruct (Node.syntaxKind x) as [identifier |];
    [| now rewrite app_nil_r].
  destruct (String.eqb identifier key) eqn:Hk.
  - apply String.eqb_eq in Hk. subst identifier. rewrite Hname.
    unfold addAssertion. rewrite Assertions_get_set_same.
    assert (Hnodes : match Assertions.get key (collected l) with
                     | Some nodes => nodes
                     | None => []
                     end = filter (isCallOfb key) l).
    { rewrite IH. now destruct (filter (isCallOfb key) l). }
    rewrite Hnodes. unfold NodeSet.add.
    destruct (NodeSet.has (filter (isCallOfb key) l) x) eqn:Hhas.
    + exfalso. apply NodeSet_has_spec in Hhas.
      destruct Hhas as [m [Hm Hid]]. apply filter_In in Hm.
      apply Hfresh. rewrite <- Hid. now apply in_map.
    + now destruct (filter (isCallOfb key) l).
  - rewrite app_nil_r. apply String.eqb_neq in Hk.
    destruct (Set_has_string assertionFnNames identifier); [| exact IH].
    unfold addAssertion. now rewrite Assertions_get_set_other.
Qed.
End Collected.

Section Revisit.
Context {Assertion : AssertionEnum}.

Lemma visitNode_recorded (assertions : Assertions.t) (node : Node.t) :
  recordedIn assertions node -> visitNode node assertions = assertions.
Proof.
  intros Hrec. unfold visitNode.
  destruct (Node.syntaxKind node) as [identifier |] eqn:Hkind;
    [| reflexivity].
  destruct (Set_has_string assertionFnNames identifier) eqn:Hname;
    [| reflexivity].
  destruct (Hrec identifier Hkind Hname) as [nodes [Hget Hhas]].
  unfold addAssertion, NodeSet.add. rewrite Hget, Hhas.
  now apply Assertions_set_same_value.
Qed.

Lemma visitNode_records (assertions : Assertions.t) (node : Node.t) :
  recordedIn (visitNode node assertions) node.
Proof.
  intros identifier Hkind Hname. unfold visitNode. rewrite Hkind, Hname.
  unfold addAssertion. rewrite Assertions_get_set_same.
  eexists. split; [reflexivity | apply NodeSet_add_has].
Qed.

Lemma visitNode_keeps_recorded (assertions : Assertions.t)
    (node other : Node.t) :
  recordedIn assertions node -> recordedIn (visitNode other assertions) node.
Proof.
  intros Hrec identifier Hkind Hname.
  destruct (Hrec identifier Hkind Hname) as [nodes [Hget Hhas]].
  unfold visitNode.
  destruct (Node.syntaxKind other) as [i |]; [| now exists nodes].
  destruct (Set_has_string assertionFnNames i); [| now exists nodes].
  unfold addAssertion. destruct (string_dec i identifier) as [-> | Hne].
  - rewrite Assertions_get_set_same, Hget.
    eexists. split; [reflexivity | now apply NodeSet_add_keeps].
  - rewrite Assertions_get_set_other by assumption. now exists nodes.
Qed.

Lemma fold_visitNode_records (l : list Node.t) :
  forall assertions node,
    In node l \/ recordedIn assertions node ->
    recordedIn (fold_left (fun a n => visitNode n a) l assertions) node.
Proof.
  induction l as [| x l IH]; intros assertions node H; cbn [fold_left].
  - now destruct H as [[] | H].
  - apply IH. destruct H as [[-> | H] | H].
    + right. apply visitNode_records.
    + now left.
    + right. now apply visitNode_keeps_recorded.
Qed.

Lemma fold_visitNode_recorded (l : list Node.t) :
  forall assertions,
    (forall node, In node l -> recordedIn assertions node) ->
    fold_left (fun a n => visitNode n a) l assertions = assertions.
Proof.
  induction l as [| x l IH]; intros assertions H; cbn [fold_left];
    [reflexivity |].
  rewrite visitNode_recorded by (apply H; now left).
  apply IH. intros node Hnode. apply H. now right.
Qed.

(** *** X1 *)

(** X1. With distinct node identities, the set [extractAssertions] keeps
    for a recognised identifier is the list of the calls of that identifier
    over all source files, in traversal order (source file after source
    file, each in pre-order); an identifier without a call, or one that is
    not recognised, has no entry in the map. *)
Theorem X1_sets_list_calls_in_traversal_order {TypeChecker : Type}
    (program : TsProgram.t TypeChecker) :
  distinctIdentities (nodesOf program) ->
  forall identifier,
    Assertions.get identifier (fst (extractAssertions program))
    = if Set_has_string assertionFnNames identifier
      then match callsOf identifier (nodesOf program) with
           | [] => None
           | calls => Some calls
           end
      else None.
Proof.
  intros Hids identifier. rewrite extractAssertions_nodesOf.
  destruct (Set_has_string assertionFnNames identifier) eqn:Hname.
  - now apply collect_callsOf.
  - destruct (Assertions.get identifier (collected (nodesOf program)))
      as [nodes |] eqn:Hget; [| reflexivity].
    destruct (collect_sets _ _ _ Hget) as [H _]. congruence.
Qed.

(** *** X2 *)

(** X2. [extractAssertions] records nothing but calls of recognised
    identifiers: a node in the set of a key is a node of a source file of
    the program, it is a call expression whose callee text is the key, and
    the key is one of the assertion function names. *)
Theorem X2_only_recognised_calls_are_extracted {TypeChecker : Type}
    (program : TsProgram.t TypeChecker) (key : string) (nodes : NodeSet.t)
    (node : Node.t) :
  Assertions.get key (fst (extractAssertions program)) = Some nodes ->
  In node nodes ->
  In node (nodesOf program)
  /\ Node.syntaxKind node = Node.CallExpression key
  /\ In key Assertion_values.
Proof.
  rewrite extractAssertions_nodesOf. intros Hget Hin.
  destruct (collect_sound _ _ _ _ Hget Hin) as [H1 H2].
  destruct (collect_sets _ _ _ Hget) as [H3 _].
  split; [assumption |]. split; [exact H2 |].
  now apply Set_has_string_In.
Qed.

(** *** X3 *)

(** X3. The map [extractAssertions] returns has one entry per key, every
    set in it is non-empty, and no set holds two nodes of the same
    identity. *)
Theorem X3_extracted_map_is_well_formed {TypeChecker : Type}
    (program : TsProgram.t TypeChecker) :
  NoDup (map fst (fst (extractAssertions program)))
  /\ forall key nodes,
       In (key, nodes) (fst (extractAssertions program)) ->
       nodes <> [] /\ NoDup (map Node.id nodes).
Proof.
  rewrite extractAssertions_nodesOf. split; [apply collect_keys |].
  intros key nodes Hin.
  assert (Hget : Assertions.get key (collected (nodesOf program))
                 = Some nodes).
  { pose proof (collect_keys (nodesOf program)) as Hnd.
    induction (collected (nodesOf program)) as [| [k v] m IH];
      [destruct Hin |].
    cbn in Hnd. inversion Hnd as [| k' ks Hnotin Hnd']; subst.
    cbn. destruct Hin as [[= -> ->] | Hin].
    - now rewrite String.eqb_refl.
    - destruct (String.eqb k key) eqn:Hk; [| now apply IH].
      apply String.eqb_eq in Hk. subst k. exfalso. apply Hnotin.
      apply in_map_iff. now exists (key, nodes). }
  now destruct (collect_sets _ _ _ Hget) as [_ H].
Qed.

(** *** X4 *)

(** X4. Reaching the nodes of a tree a second time changes nothing: the
    sets are keyed by node identity, so [visit] applied twice to a node
    gives the map of one application, whatever the map it starts from. *)
Theorem X4_visit_twice_is_visit_once (node : Node.t)
    (assertions : Assertions.t) :
  visit node (visit node assertions) = visit node assertions.
Proof.
  rewrite !visit_preorder. apply fold_visitNode_recorded.
  intros n Hn. apply fold_visitNode_records. now left.
Qed.

(** *** X5 *)

(** X5. [assertionCount] is 0 exactly when no node of any source file is a
    call of a recognised identifier; the map is then empty. *)
Theorem X5_count_zero_iff_no_assertion_call {TypeChecker : Type}
    (program : TsProgram.t TypeChecker) :
  (snd (extractAssertions program) = 0%nat
   <-> forall node, In node (nodesOf program) -> isAssertionCall node = false)
  /\ (snd (extractAssertions program) = 0%nat ->
      fst (extractAssertions program) = []).
Proof.
  assert (Hcount : snd (extractAssertions program)
                   = totalSize (collected (nodesOf program))).
  { rewrite <- extractAssertions_nodesOf. unfold extractAssertions.
    cbn [fst snd]. apply countAssertions_totalSize. }
  assert (Hnone : (forall node, In node (nodesOf program) ->
                                isAssertionCall node = false) ->
                  collected (nodesOf program) = []).
  { intros Hno. unfold collected. apply fold_visitNode_recorded.
    intros node Hnode identifier Hkind Hname.
    specialize (Hno node Hnode). unfold isAssertionCall in Hno.
    rewrite Hkind in Hno. congruence. }
  assert (Hzero : snd (extractAssertions program) = 0%nat ->
                  forall node, In node (nodesOf program) ->
                               isAssertionCall node = false).
  { intros H0 node Hnode.
    destruct (isAssertionCall node) eqn:Hcall; [| reflexivity].
    unfold isAssertionCall in Hcall.
    destruct (Node.syntaxKind node) as [identifier |] eqn:Hkind;
      [| discriminate].
    destruct (collect_complete _ _ _ Hnode Hkind Hcall)
      as [nodes [Hget Hhas]].
    pose proof (Assertions_get_totalSize _ _ _ Hget) as Hle.
    apply NodeSet_has_spec in Hhas. destruct Hhas as [m [Hm _]].
    destruct nodes; [destruct Hm |]. unfold NodeSet.size in Hle.
    cbn [List.length] in Hle. lia. }
  split; [split |].
  - exact Hzero.
  - intros Hno. rewrite Hcount, (Hnone Hno). reflexivity.
  - intros H0. rewrite extractAssertions_nodesOf. now apply Hnone, Hzero.
Qed.
End Revisit.

(** ** The index, entry by entry *)

Lemma map_snd_entriesFrom (nodes : list Node.t) :
  forall next, map snd (entriesFrom next nodes) = nodes.
Proof.
  induction nodes as [| n nodes IH]; intros next; cbn; [reflexivity |].
  now rewrite IH.
Qed.

Section IndexOrder.
Context {Assertion : AssertionEnum}.

(** *** X6 *)

(** X6. [parseErrorAssertionToLocation] returns an empty map when the map
    of assertions has no [expectError] key. Otherwise it has one entry per
    node of that set, in the order of the set, also for nodes of equal
    spans: the keys are distinct objects, and each key holds the file
    name, start and end of its node. *)
Theorem X6_index_has_one_entry_per_expectError_node
    (assertions : Assertions.t) :
  match Assertions.get EXPECT_ERROR assertions with
  | None => parseErrorAssertionToLocation assertions = []
  | Some nodes =>
      map snd (parseErrorAssertionToLocation assertions) = nodes
      /\ keysOf (parseErrorAssertionToLocation assertions)
         = seq 0 (List.length nodes)
      /\ forall location error,
           In (location, error) (parseErrorAssertionToLocation assertions) ->
           Location.fileName location
             = SourceFile.fileName (Node.getSourceFile error)
           /\ Location.start location = Node.getStart error
           /\ Location.end_ location = Node.getEnd error
  end.
Proof.
  rewrite parseErrorAssertionToLocation_entries.
  destruct (Assertions.get EXPECT_ERROR assertions) as [nodes |];
    [| reflexivity].
  split; [apply map_snd_entriesFrom |].
  split; [apply keysOf_entriesFrom |].
  intros location error Hin. apply entriesFrom_In in Hin.
  destruct Hin as [_ ->]. repeat split.
Qed.

(** *** X7 *)

(** X7. With distinct node identities and [expectError] among the
    assertion function names, the nodes of the index built from a program
    are its [expectError] calls in traversal order: source file after
    source file, an outer call before the calls nested in it. *)
Theorem X7_index_follows_traversal_order {TypeChecker : Type}
    (program : TsProgram.t TypeChecker) :
  distinctIdentities (nodesOf program) ->
  In EXPECT_ERROR Assertion_values ->
  map snd (parseErrorAssertionToLocation (fst (extractAssertions program)))
  = callsOf EXPECT_ERROR (nodesOf program).
Proof.
  intros Hids Hname. apply Set_has_string_In in Hname.
  rewrite parseErrorAssertionToLocation_entries, extractAssertions_nodesOf.
  rewrite (collect_callsOf _ Hids _ Hname).
  destruct (callsOf EXPECT_ERROR (nodesOf program)) as [| c calls] eqn:Hc;
    [reflexivity |].
  apply map_snd_entriesFrom.
Qed.
End IndexOrder.

(** ** What a run returns *)

Lemma preserved_filter {AssertionResult : Type} (E : ExpectedErrors.t)
    (ds : list Diagnostic.t) :
  preserved (AssertionResult := AssertionResult) E ds
  = map OfDiagnostic (filter (surfaces E) ds).
Proof.
  unfold preserved, surfaces.
  induction ds as [| x ds IH]; [reflexivity |].
  cbn [flat_map filter]. rewrite IH.
  now destruct (verdict E x) as [[| | l] |].
Qed.

Lemma isIgnoredDiagnostic_preserve (d : DiagnosticWithLocation.t)
    (E : ExpectedErrors.t) :
  isIgnoredDiagnostic d E = preserve
  <-> Set_has_number ignoredDiagnostics (DiagnosticWithLocation.code d) = false
      /\ (Set_has_number expectErrorDiagnosticCodesToIgnore
                         (DiagnosticWithLocation.code d) = true ->
          forall entry, In entry E -> ~ strictlyContains (fst entry) d).
Proof.
  unfold isIgnoredDiagnostic.
  destruct (Set_has_number ignoredDiagnostics _).
  - split; [discriminate | intros [H _]; discriminate].
  - destruct (Set_has_number expectErrorDiagnosticCodesToIgnore _);
      cbn [negb].
    + rewrite scan_preserve. split.
      * intros H. split; [reflexivity |]. intros _ entry Hentry.
        apply inside_false_spec. now apply H.
      * intros [_ H] entry Hentry. apply inside_false_spec. now apply H.
    + split; [| reflexivity]. intros _. split; [reflexivity | discriminate].
Qed.

Section Output.
Context {Assertion : AssertionEnum} {host : Host}.

Lemma run_cases (testFilePath : string) :
  configDiagnosticsOf testFilePath <> []
  \/ (configDiagnosticsOf testFilePath = []
      /\ syntacticDiagnosticsOf testFilePath <> [])
  \/ completes testFilePath.
Proof.
  unfold completes.
  destruct (configDiagnosticsOf testFilePath); [| left; discriminate].
  destruct (syntacticDiagnosticsOf testFilePath).
  - right. right. now split.
  - right. left. split; [reflexivity | discriminate].
Qed.

(** *** X8 *)

(** X8. A run that takes no short-circuit returns, in this order: the
    results of [handleAssertions]; the semantic diagnostics the loop
    preserves, in the order the checker gave them; one failure with the
    fixed message per index entry no diagnostic was matched to, in the
    order of the index. *)
Theorem X8_results_are_ordered_in_three_parts (testFilePath : string) :
  completes testFilePath ->
  tsdResults (result (tsdLite testFilePath))
  = map OfAssertion
        (handleAssertions (TsProgram.getTypeChecker (programOf testFilePath))
                          (fst (extractAssertions (programOf testFilePath))))
    ++ map OfDiagnostic
           (filter (surfaces (expectedErrorsOf testFilePath))
                   (semanticDiagnosticsOf testFilePath))
    ++ map (fun entry => OfExpectedError (snd entry) expectedAnError)
           (filter (unmatched
                      (foundLocations (expectedErrorsOf testFilePath)
                                      (semanticDiagnosticsOf testFilePath)))
                   (expectedErrorsOf testFilePath)).
Proof.
  intros Hrun. rewrite (tsdResults_completes _ Hrun).
  now rewrite preserved_filter, remainingOf_eq.
Qed.

(** *** X9 *)

(** X9. The output has no [tsdErrors] exactly when neither the
    configuration nor the syntax check reported a diagnostic. When it has
    them, the list is not empty, it is the list of configuration
    diagnostics or else the list of syntactic diagnostics, and
    [assertionCount] is 0 and [tsdResults] is empty. *)
Theorem X9_errors_present_exactly_on_short_circuit (testFilePath : string) :
  (tsdErrors (result (tsdLite testFilePath)) = None
   <-> completes testFilePath)
  /\ forall errors,
       tsdErrors (result (tsdLite testFilePath)) = Some errors ->
       errors <> []
       /\ (errors = configDiagnosticsOf testFilePath
           \/ (configDiagnosticsOf testFilePath = []
               /\ errors = syntacticDiagnosticsOf testFilePath))
       /\ assertionCount (result (tsdLite testFilePath)) = 0%nat
       /\ tsdResults (result (tsdLite testFilePath)) = [].
Proof.
  destruct (run_cases testFilePath) as [Hconfig | [[Hconfig Hsyntax] | Hrun]].
  - rewrite (tsdLite_configDiagnostics _ Hconfig). unfold result, completes.
    cbn [fst tsdErrors assertionCount tsdResults]. split.
    + split; [discriminate | intros [H _]; contradiction].
    + intros errors [= <-]. auto.
  - rewrite (tsdLite_syntacticDiagnostics _ Hconfig Hsyntax).
    unfold result, completes.
    cbn [fst tsdErrors assertionCount tsdResults]. split.
    + split; [discriminate | intros [_ H]; contradiction].
    + intros errors [= <-]. auto.
  - rewrite (tsdLite_completes _ Hrun). unfold result.
    cbn [fst tsdErrors]. split.
    + split; [intros _; exact Hrun | reflexivity].
    + intros errors H. discriminate.
Qed.

(** *** X10 *)

(** X10. A diagnostic is among the results exactly when the run takes no
    short-circuit and the diagnostic is a semantic diagnostic with a file
    whose name the test [/[/\\]node_modules[/\\]/] does not accept (no
    [node_modules] between two separators; a name that only begins with
    [node_modules] is not accepted), its code is not globally ignored, and,
    if its code is suppressible, no entry of the index strictly contains
    its start. *)
Theorem X10_diagnostics_in_results_characterised (testFilePath : string)
    (diagnostic : Diagnostic.t) :
  In (OfDiagnostic diagnostic) (tsdResults (result (tsdLite testFilePath)))
  <-> completes testFilePath
      /\ In diagnostic (semanticDiagnosticsOf testFilePath)
      /\ exists d,
           diagnostic = Diagnostic.WithLocation d
           /\ NodeModules.test
                (SourceFile.fileName (DiagnosticWithLocation.file d)) = false
           /\ Set_has_number ignoredDiagnostics
                             (DiagnosticWithLocation.code d) = false
           /\ (Set_has_number expectErrorDiagnosticCodesToIgnore
                              (DiagnosticWithLocation.code d) = true ->
               forall entry, In entry (expectedErrorsOf testFilePath) ->
                             ~ strictlyContains (fst entry) d).
Proof.
  split.
  - intros Hin.
    assert (Hrun : completes testFilePath).
    { destruct (run_cases testFilePath)
        as [Hconfig | [[Hconfig Hsyntax] | Hrun]]; [| | exact Hrun].
      - rewrite (tsdLite_configDiagnostics _ Hconfig) in Hin. destruct Hin.
      - rewrite (tsdLite_syntacticDiagnostics _ Hconfig Hsyntax) in Hin.
        destruct Hin. }
    apply In_tsdResults_OfDiagnostic in Hin. destruct Hin as [Hd Hv].
    split; [assumption |]. split; [assumption |].
    unfold verdict in Hv. destruct diagnostic as [d | c m]; [| discriminate].
    destruct (NodeModules.test _) eqn:Htest; [discriminate |].
    injection Hv as Hv. apply isIgnoredDiagnostic_preserve in Hv.
    exists d. tauto.
  - intros [Hrun [Hd [d [-> [Htest Hcls]]]]].
    apply preserved_in_tsdResults; try assumption.
    now apply isIgnoredDiagnostic_preserve.
Qed.
End Output.

(** ** Expectations met and unmet *)

Lemma entriesFrom_same_node (nodes : list Node.t) :
  NoDup nodes ->
  forall next l1 l2 n,
    In (l1, n) (entriesFrom next nodes) ->
    In (l2, n) (entriesFrom next nodes) -> l1 = l2.
Proof.
  induction nodes as [| x nodes IH]; intros Hnd next l1 l2 n H1 H2;
    [destruct H1 |].
  inversion Hnd as [| y ys Hnotin Hnd']; subst.
  destruct H1 as [H1 | H1], H2 as [H2 | H2].
  - congruence.
  - injection H1 as _ ->. apply entriesFrom_In in H2. tauto.
  - injection H2 as _ ->. apply entriesFrom_In in H1. tauto.
  - now apply (IH Hnd' (S next) l1 l2 n).
Qed.

Lemma scan_app_found (f : string) (s : Z) (before rest : ExpectedErrors.t) :
  (exists entry, In entry before /\ inside f s (fst entry) = true) ->
  exists location error,
    In (location, error) before
    /\ scanExpectedErrors f s (before ++ rest) = matched location.
Proof.
  induction before as [| [l e] before IH]; intros [entry [Hin Hinside]];
    [destruct Hin |].
  cbn [app scanExpectedErrors].
  destruct (inside f s l) eqn:Hl.
  - exists l, e. split; [now left | reflexivity].
  - destruct Hin as [<- | Hin]; [cbn in Hinside; congruence |].
    destruct IH as [location [error [H1 H2]]]; [now exists entry |].
    exists location, error. split; [now right | assumption].
Qed.

Lemma isIgnoredDiagnostic_contained (d : DiagnosticWithLocation.t)
    (before rest : ExpectedErrors.t) :
  Set_has_number expectErrorDiagnosticCodesToIgnore
                 (DiagnosticWithLocation.code d) = true ->
  (exists entry, In entry before /\ strictlyContains (fst entry) d) ->
  exists location error,
    In (location, error) before
    /\ isIgnoredDiagnostic d (before ++ rest) = matched location.
Proof.
  intros Hcode [entry [Hin Hc]]. unfold isIgnoredDiagnostic.
  rewrite (suppressible_not_ignored _ Hcode), Hcode. cbn [negb].
  apply scan_app_found. exists entry. split; [assumption |].
  now apply inside_spec.
Qed.

Section Expectations.
Context {Assertion : AssertionEnum} {host : Host}.

Lemma In_tsdResults_OfExpectedError (testFilePath : string) (error : Node.t)
    (messageText : string) :
  In (OfExpectedError error messageText)
     (tsdResults (result (tsdLite testFilePath)))
  <-> completes testFilePath
      /\ messageText = expectedAnError
      /\ exists location, In (location, error) (remainingOf testFilePath).
Proof.
  split.
  - intros Hin.
    assert (Hrun : completes testFilePath).
    { destruct (run_cases testFilePath)
        as [Hconfig | [[Hconfig Hsyntax] | Hrun]]; [| | exact Hrun].
      - rewrite (tsdLite_configDiagnostics _ Hconfig) in Hin. destruct Hin.
      - rewrite (tsdLite_syntacticDiagnostics _ Hconfig Hsyntax) in Hin.
        destruct Hin. }
    split; [assumption |].
    rewrite (tsdResults_completes _ Hrun) in Hin.
    apply in_app_or in Hin. destruct Hin as [Hin | Hin].
    { unfold assertionResultsOf in Hin. apply in_map_iff in Hin.
      destruct Hin as [r [Hr _]]. discriminate. }
    apply in_app_or in Hin. destruct Hin as [Hin | Hin].
    { apply In_preserved in Hin. destruct Hin as [x [Hx _]]. discriminate. }
    apply in_map_iff in Hin. destruct Hin as [[l e] [Heq Hin]].
    unfold notFound in Heq. cbn [snd] in Heq. injection Heq as -> <-.
    split; [reflexivity | now exists l].
  - intros [Hrun [-> [location Hin]]].
    rewrite (tsdResults_completes _ Hrun).
    apply in_or_app. right. apply in_or_app. right.
    apply in_map_iff. now exists (location, error).
Qed.

Lemma expectedErrorsOf_same_node (testFilePath : string)
    (l1 l2 : Location.t) (n : Node.t) :
  In (l1, n) (expectedErrorsOf testFilePath) ->
  In (l2, n) (expectedErrorsOf testFilePath) -> l1 = l2.
Proof.
  unfold expectedErrorsOf, assertionsOf.
  rewrite parseErrorAssertionToLocation_entries, extractAssertions_nodesOf.
  destruct (Assertions.get EXPECT_ERROR _) as [nodes |] eqn:Hget;
    [| intros []].
  apply entriesFrom_same_node.
  destruct (collect_sets _ _ _ Hget) as [_ [_ Hnd]].
  now apply NoDup_map_inv in Hnd.
Qed.

Lemma found_key (testFilePath : string) (key : Location.t) :
  In key (foundLocations (expectedErrorsOf testFilePath)
                         (semanticDiagnosticsOf testFilePath)) ->
  exists d error,
    In (Diagnostic.WithLocation d) (semanticDiagnosticsOf testFilePath)
    /\ NodeModules.test
         (SourceFile.fileName (DiagnosticWithLocation.file d)) = false
    /\ isIgnoredDiagnostic d (expectedErrorsOf testFilePath) = matched key
    /\ strictlyContains key d
    /\ In (key, error) (expectedErrorsOf testFilePath).
Proof.
  intros Hkey. apply In_foundLocations in Hkey.
  destruct Hkey as [x [Hx Hv]]. apply verdict_matched in Hv.
  destruct Hv as [d [-> [Htest Hm]]].
  destruct (isIgnoredDiagnostic_matched _ _ _ Hm) as [_ [Hc [error He]]].
  exists d, error. auto.
Qed.

Lemma remains (testFilePath : string) (location : Location.t)
    (error : Node.t) :
  In (location, error) (expectedErrorsOf testFilePath) ->
  (forall d,
      In (Diagnostic.WithLocation d) (semanticDiagnosticsOf testFilePath) ->
      NodeModules.test
        (SourceFile.fileName (DiagnosticWithLocation.file d)) = false ->
      isIgnoredDiagnostic d (expectedErrorsOf testFilePath)
        <> matched location) ->
  In (location, error) (remainingOf testFilePath).
Proof.
  intros Hin Hnone. rewrite remainingOf_eq. apply filter_In.
  split; [assumption |]. apply unmatched_spec. intros key Hkey Href.
  destruct (found_key _ _ Hkey) as [d [error' [Hd [Htest [Hm [_ He]]]]]].
  assert (Hsame : (location, error) = (key, error')).
  { apply (keysOf_injective (expectedErrorsOf testFilePath));
      try assumption.
    apply expectedErrorsOf_NoDup. }
  injection Hsame as -> _. now apply (Hnone d).
Qed.

(** *** X11 *)

(** X11. In a run that takes no short-circuit, let a located semantic
    diagnostic with a suppressible code, not under [node_modules], start
    strictly inside the span of an [expectError] call, and let that call be
    the only [expectError] call of the program whose span strictly contains
    that start. Then the diagnostic is not in the results, and the results
    hold no failure for the call. *)
Theorem X11_satisfied_expectation_is_silent (testFilePath : string)
    (error : Node.t) (d : DiagnosticWithLocation.t) :
  completes testFilePath ->
  distinctIdentities (nodesOf (programOf testFilePath)) ->
  In EXPECT_ERROR Assertion_values ->
  In error (nodesOf (programOf testFilePath)) ->
  isCallOf EXPECT_ERROR error ->
  In (Diagnostic.WithLocation d) (semanticDiagnosticsOf testFilePath) ->
  Set_has_number expectErrorDiagnosticCodesToIgnore
                 (DiagnosticWithLocation.code d) = true ->
  NodeModules.test (SourceFile.fileName (DiagnosticWithLocation.file d))
    = false ->
  spanContains error d ->
  (forall node,
      In node (nodesOf (programOf testFilePath)) ->
      isCallOf EXPECT_ERROR node -> spanContains node d -> node = error) ->
  ~ In (OfDiagnostic (Diagnostic.WithLocation d))
       (tsdResults (result (tsdLite testFilePath)))
  /\ forall messageText,
       ~ In (OfExpectedError error messageText)
            (tsdResults (result (tsdLite testFilePath))).
Proof.
  intros Hrun Hids Hname Hin Hcall Hd Hcode Htest Hinside Honly.
  apply Set_has_string_In in Hname.
  destruct (expectedErrors_complete (programOf testFilePath) error
              Hids Hname Hin Hcall) as [ref Hentry].
  fold (assertionsOf testFilePath) in Hentry.
  fold (expectedErrorsOf testFilePath) in Hentry.
  destruct (isIgnoredDiagnostic_contained d (expectedErrorsOf testFilePath)
              [] Hcode) as [location [error' [Hkey Hm]]].
  { exists (locationOf ref error, error). split; [assumption |].
    now apply strictlyContains_locationOf. }
  rewrite app_nil_r in Hm.
  assert (Herror : error' = error /\ location = locationOf ref error).
  { destruct (isIgnoredDiagnostic_matched _ _ _ Hm) as [_ [Hc _]].
    pose proof Hkey as Hsound. apply expectedErrors_sound in Hsound.
    destruct Hsound as [Hnode [Hcall' Hloc]].
    assert (error' = error) as ->.
    { apply Honly; try assumption. rewrite Hloc in Hc.
      now apply strictlyContains_locationOf in Hc. }
    split; [reflexivity |].
    now apply (expectedErrorsOf_same_node testFilePath _ _ error). }
  destruct Herror as [-> ->].
  assert (Hfound : In (locationOf ref error)
                      (foundLocations (expectedErrorsOf testFilePath)
                                      (semanticDiagnosticsOf testFilePath))).
  { apply In_foundLocations. exists (Diagnostic.WithLocation d).
    split; [assumption |]. apply verdict_matched. now exists d. }
  split.
  - intros Hres. apply In_tsdResults_OfDiagnostic in Hres.
    destruct Hres as [_ Hv]. unfold verdict in Hv.
    rewrite Htest, Hm in Hv. discriminate.
  - intros messageText Hres. apply In_tsdResults_OfExpectedError in Hres.
    destruct Hres as [_ [_ [l Hl]]]. rewrite remainingOf_eq in Hl.
    apply filter_In in Hl. destruct Hl as [Hl Hun].
    assert (l = locationOf ref error) as ->.
    { now apply (expectedErrorsOf_same_node testFilePath _ _ error). }
    apply (proj1 (unmatched_spec _ _) Hun _ Hfound). reflexivity.
Qed.

(** *** X12 *)

(** X12. An entry of the index is shadowed when every semantic diagnostic
    that could satisfy it (located, with a file name the test
    [/[/\\]node_modules[/\\]/] does not accept, suppressible code, start
    strictly inside the entry's span) also starts strictly inside the span
    of an entry that comes earlier in the index. In a run that takes no
    short-circuit a shadowed entry is never removed: the results hold the
    failure with the fixed message for its node. *)
Theorem X12_shadowed_expectation_is_reported_unmet (testFilePath : string)
    (before after : ExpectedErrors.t) (location : Location.t)
    (error : Node.t) :
  completes testFilePath ->
  expectedErrorsOf testFilePath = before ++ (location, error) :: after ->
  (forall d,
      In (Diagnostic.WithLocation d) (semanticDiagnosticsOf testFilePath) ->
      NodeModules.test
        (SourceFile.fileName (DiagnosticWithLocation.file d)) = false ->
      Set_has_number expectErrorDiagnosticCodesToIgnore
                     (DiagnosticWithLocation.code d) = true ->
      strictlyContains location d ->
      exists entry, In entry before /\ strictlyContains (fst entry) d) ->
  In (OfExpectedError error expectedAnError)
     (tsdResults (result (tsdLite testFilePath))).
Proof.
  intros Hrun HE Hshadow. apply In_tsdResults_OfExpectedError.
  split; [assumption |]. split; [reflexivity |]. exists location.
  apply remains.
  - rewrite HE. apply in_or_app. right. now left.
  - intros d Hd Htest Hm.
    destruct (isIgnoredDiagnostic_matched _ _ _ Hm) as [Hcode [Hc _]].
    destruct (isIgnoredDiagnostic_contained d before
                ((location, error) :: after) Hcode
                (Hshadow d Hd Htest Hcode Hc))
      as [l' [e' [Hbefore Hm']]].
    rewrite <- HE, Hm in Hm'. injection Hm' as <-.
    pose proof (expectedErrorsOf_NoDup testFilePath) as Hnd.
    rewrite HE in Hnd. unfold keysOf in Hnd. rewrite map_app in Hnd.
    cbn [map fst] in Hnd. apply NoDup_remove_2 in Hnd. apply Hnd.
    apply in_or_app. left. apply in_map_iff. now exists (location, e').
Qed.

(** *** X13 *)

(** X13. An [expectError] call in a source file whose name has
    [node_modules] between two separators (a name the test
    [/[/\\]node_modules[/\\]/] accepts) can never be satisfied: the
    diagnostics of its file are skipped before the classifier, and
    diagnostics of other files do not match its file name. Every run that
    takes no short-circuit reports the failure with the fixed message for
    it. A file whose name only begins with [node_modules] is not of this
    sort. *)
Theorem X13_expectation_in_dependency_is_always_unmet (testFilePath : string)
    (error : Node.t) :
  completes testFilePath ->
  distinctIdentities (nodesOf (programOf testFilePath)) ->
  In EXPECT_ERROR Assertion_values ->
  In error (nodesOf (programOf testFilePath)) ->
  isCallOf EXPECT_ERROR error ->
  underNodeModules (SourceFile.fileName (Node.getSourceFile error)) ->
  In (OfExpectedError error expectedAnError)
     (tsdResults (result (tsdLite testFilePath))).
Proof.
  intros Hrun Hids Hname Hin Hcall Hunder.
  apply Set_has_string_In in Hname. apply NodeModules_test_spec in Hunder.
  destruct (expectedErrors_complete (programOf testFilePath) error
              Hids Hname Hin Hcall) as [ref Hentry].
  fold (assertionsOf testFilePath) in Hentry.
  fold (expectedErrorsOf testFilePath) in Hentry.
  apply In_tsdResults_OfExpectedError.
  split; [assumption |]. split; [reflexivity |].
  exists (locationOf ref error). apply remains; [assumption |].
  intros d Hd Htest Hm.
  destruct (isIgnoredDiagnostic_matched _ _ _ Hm) as [_ [[Hfile _] _]].
  cbn [locationOf Location.fileName] in Hfile. congruence.
Qed.

(** *** X14 *)

(** X14. The failures with the fixed message in the results of a run are
    never more than the entries of the index, which are never more than
    [assertionCount]. *)
Theorem X14_unmet_expectations_bounded_by_count (testFilePath : string) :
  (List.length (filter isOfExpectedError
                       (tsdResults (result (tsdLite testFilePath))))
   <= List.length (expectedErrorsOf testFilePath))%nat
  /\ (completes testFilePath ->
      (List.length (expectedErrorsOf testFilePath)
       <= assertionCount (result (tsdLite testFilePath)))%nat).
Proof.
  split.
  - destruct (run_cases testFilePath)
      as [Hconfig | [[Hconfig Hsyntax] | Hrun]].
    + rewrite (tsdLite_configDiagnostics _ Hconfig). cbn. lia.
    + rewrite (tsdLite_syntacticDiagnostics _ Hconfig Hsyntax). cbn. lia.
    + rewrite (filter_isOfExpectedError_tsdResults _ Hrun), length_map.
      rewrite remainingOf_eq. apply filter_length_le.
  - intros Hrun. rewrite (tsdLite_completes _ Hrun). unfold result.
    cbn [fst assertionCount].
    unfold expectedErrorsOf, assertionsOf.
    rewrite parseErrorAssertionToLocation_entries.
    unfold extractAssertions. cbn [fst snd].
    rewrite countAssertions_totalSize.
    destruct (Assertions.get EXPECT_ERROR _) as [nodes |] eqn:Hget;
      [| cbn; lia].
    rewrite entriesFrom_length.
    apply (Assertions_get_totalSize _ _ _ Hget).
Qed.

(** *** X15 *)

(** X15. When no node of the program is an [expectError] call, a run that
    takes no short-circuit returns the results of [handleAssertions]
    followed by every semantic diagnostic that has a file whose name the
    test [/[/\\]node_modules[/\\]/] does not accept and a code that is not
    globally ignored, in the checker's order, and no failure for an unmet
    expectation. *)
Theorem X15_without_expectations_all_reportable_surface
    (testFilePath : string) :
  completes testFilePath ->
  (forall node, In node (nodesOf (programOf testFilePath)) ->
                ~ isCallOf EXPECT_ERROR node) ->
  tsdResults (result (tsdLite testFilePath))
  = assertionResultsOf testFilePath
    ++ map OfDiagnostic (filter reportable (semanticDiagnosticsOf testFilePath)).
Proof.
  intros Hrun Hnone.
  assert (HE : expectedErrorsOf testFilePath = []).
  { destruct (expectedErrorsOf testFilePath) as [| [l e] E] eqn:HE;
      [reflexivity |].
    assert (Hin : In (l, e) (expectedErrorsOf testFilePath)).
    { rewrite HE. now left. }
    apply expectedErrors_sound in Hin. destruct Hin as [Hnode [Hcall _]].
    now destruct (Hnone e Hnode). }
  rewrite (tsdResults_completes _ Hrun), remainingOf_eq, HE.
  cbn [filter map]. rewrite app_nil_r, preserved_filter. do 2 f_equal.
  apply filter_ext. intros [d | c m]; [| reflexivity].
  unfold surfaces, verdict, reportable, isIgnoredDiagnostic.
  destruct (NodeModules.test _); [reflexivity |].
  destruct (Set_has_number ignoredDiagnostics _); [reflexivity |].
  now destruct (negb _).
Qed.
End Expectations.

(** ** The dependency test on paths *)

Lemma string_append_assoc (a b c : string) :
  ((a ++ b) ++ c)%string = (a ++ (b ++ c))%string.
Proof. induction a as [| x a IH]; cbn; [reflexivity | now rewrite IH]. Qed.

(** *** X16 *)

(** X16. The test [/[/\\]node_modules[/\\]/] accepts a file name exactly
    when it has the text [node_modules] between two separators, each a
    slash or a backslash; what comes before and after is free, so a name
    stays accepted when it is extended on either side, and a name that
    starts with [node_modules] without a separator before it is accepted
    only for a later occurrence. *)
Theorem X16_dependency_test_characterised (fileName : string) :
  (NodeModules.test fileName = true
   <-> exists (before after : string) (s1 s2 : ascii),
         (s1 = "/"%char \/ s1 = "092"%char)
         /\ (s2 = "/"%char \/ s2 = "092"%char)
         /\ fileName
            = (before ++ String s1 ("node_modules" ++ String s2 after))%string)
  /\ (forall prefix suffix,
         NodeModules.test fileName = true ->
         NodeModules.test (prefix ++ fileName ++ suffix)%string = true)
  /\ (forall rest,
         NodeModules.test ("node_modules" ++ rest)%string
         = NodeModules.test rest).
Proof.
  assert (Hsep : forall c, NodeModules.separator c = true
                           <-> c = "/"%char \/ c = "092"%char).
  { intros c. unfold NodeModules.separator.
    rewrite orb_true_iff, !Ascii.eqb_eq. reflexivity. }
  split; [| split].
  - rewrite NodeModules_test_spec. unfold underNodeModules.
    split; intros [before [after [s1 [s2 [H1 [H2 H3]]]]]];
      exists before, after, s1, s2;
      (split; [now apply Hsep | split; [now apply Hsep | assumption]]).
  - intros prefix suffix H. apply NodeModules_test_spec in H.
    destruct H as [before [after [s1 [s2 [H1 [H2 ->]]]]]].
    apply NodeModules_test_spec.
    exists (prefix ++ before)%string, (after ++ suffix)%string, s1, s2.
    split; [assumption |]. split; [assumption |].
    rewrite !string_append_assoc. reflexivity.
  - intros rest. reflexivity.
Qed.

(** ** The order of the diagnostics *)

Lemma unmatched_same_elements (found found' : list Location.t)
    (entry : Location.t * Node.t) :
  (forall key, In key found -> In key found') ->
  unmatched found' entry = true -> unmatched found entry = true.
Proof.
  intros Hsub H. apply unmatched_spec. intros key Hkey.
  apply (proj1 (unmatched_spec _ _) H). now apply Hsub.
Qed.

Section Order.
Context {Assertion : AssertionEnum} {host : Host}.

(** *** X17 *)

(** X17. The order in which the checker lists the semantic diagnostics
    decides the order of the results and nothing else: for an index with
    distinct keys, two lists of diagnostics that are permutations of each
    other leave the same entries in the index, and the final results are
    permutations of each other. *)
Theorem X17_diagnostic_order_only_reorders_results (E : ExpectedErrors.t)
    (ds ds' : list Diagnostic.t) (rs : list (TsdResult AssertionResult)) :
  NoDup (keysOf E) ->
  Permutation ds ds' ->
  let state := result (forOf (reconcileDiagnostic E) ds (rs, [])) in
  let state' := result (forOf (reconcileDiagnostic E) ds' (rs, [])) in
  removeFound (snd state) E = removeFound (snd state') E
  /\ Permutation (reportRemaining (removeFound (snd state) E) (fst state))
                 (reportRemaining (removeFound (snd state') E) (fst state')).
Proof.
  intros Hnd Hperm. cbn zeta. unfold result. rewrite !forOf_reconcile.
  cbn [fst snd app].
  assert (Hfound : Permutation (foundLocations E ds) (foundLocations E ds')).
  { unfold foundLocations. now apply Permutation_flat_map. }
  assert (Hsame : removeFound (foundLocations E ds) E
                  = removeFound (foundLocations E ds') E).
  { rewrite !removeFound_filter by assumption. apply filter_ext.
    intros entry.
    destruct (unmatched (foundLocations E ds) entry) eqn:H1,
             (unmatched (foundLocations E ds') entry) eqn:H2;
      try reflexivity.
    - rewrite <- H2. symmetry.
      apply (unmatched_same_elements _ (foundLocations E ds));
        [| assumption].
      intros key. apply Permutation_in. now symmetry.
    - rewrite <- H1.
      apply (unmatched_same_elements _ (foundLocations E ds'));
        [| assumption].
      intros key. now apply Permutation_in. }
  split; [exact Hsame |].
  rewrite !reportRemaining_app, Hsame.
  apply Permutation_app_tail, Permutation_app_head.
  unfold preserved. now apply Permutation_flat_map.
Qed.

(** *** X18 *)

(** X18. A run that takes no short-circuit calls, once each and in this
    order, [resolveCompilerOptions], [ts.createProgram] on the test file
    alone, [getSyntacticDiagnostics], [getSemanticDiagnostics],
    [getTypeChecker], [extractAssertions], [handleAssertions] and
    [parseErrorAssertionToLocation]; then the classifier, once for every
    semantic diagnostic that has a file whose name the test
    [/[/\\]node_modules[/\\]/] does not accept, in the checker's order,
    and for no other diagnostic. *)
Theorem X18_calls_of_a_complete_run (testFilePath : string) :
  completes testFilePath ->
  calls (tsdLite testFilePath)
  = [Call.resolveCompilerOptions testFilePath;
     Call.createProgram [testFilePath];
     Call.getSyntacticDiagnostics;
     Call.getSemanticDiagnostics;
     Call.getTypeChecker;
     Call.extractAssertions;
     Call.handleAssertions;
     Call.parseErrorAssertionToLocation]
    ++ flat_map (fun diagnostic =>
                   match diagnostic with
                   | Diagnostic.WithLocation d =>
                       if NodeModules.test
                            (SourceFile.fileName
                               (DiagnosticWithLocation.file d))
                       then []
                       else [Call.isIgnoredDiagnostic d]
                   | Diagnostic.WithoutLocation _ _ => []
                   end)
                (semanticDiagnosticsOf testFilePath).
Proof.
  intros Hrun. now rewrite (tsdLite_completes _ Hrun).
Qed.
End Order.

(** ** The further properties on the sample programs *)

Ltac distinct_identities :=
  unfold distinctIdentities; cbn;
  repeat constructor; cbn; intuition discriminate.

Lemma Sample_program_identities : distinctIdentities (nodesOf Sample.program).
Proof. distinct_identities. Qed.

Lemma X1_sets_of_the_sample_program :
  distinctIdentities (nodesOf Sample.program)
  /\ Assertions.get "expectError"
       (fst (extractAssertions (Assertion := Sample.assertion) Sample.program))
     = Some [Sample.expectErrorCall]
  /\ Assertions.get "add"
       (fst (extractAssertions (Assertion := Sample.assertion) Sample.program))
     = None.
Proof.
  split; [exact Sample_program_identities |]. split.
  - now rewrite (X1_sets_list_calls_in_traversal_order
                   (Assertion := Sample.assertion) Sample.program
                   Sample_program_identities "expectError").
  - now rewrite (X1_sets_list_calls_in_traversal_order
                   (Assertion := Sample.assertion) Sample.program
                   Sample_program_identities "add").
Defined.

Lemma X2_extracted_node_is_a_recognised_call :
  Assertions.get "expectType"
    (fst (extractAssertions (Assertion := Sample.assertion) Sample.program))
  = Some [Sample.expectTypeCall]
  /\ In Sample.expectTypeCall (nodesOf Sample.program)
  /\ Node.syntaxKind Sample.expectTypeCall = Node.CallExpression "expectType"
  /\ In "expectType" (Assertion_values (AssertionEnum := Sample.assertion)).
Proof.
  split; [reflexivity |].
  apply (X2_only_recognised_calls_are_extracted
           (Assertion := Sample.assertion) Sample.program
           "expectType" [Sample.expectTypeCall] Sample.expectTypeCall).
  - reflexivity.
  - now left.
Defined.

Lemma X5_plain_program_counts_zero :
  (forall node, In node (nodesOf Fixture.plainProgram) ->
                isAssertionCall (Assertion := Sample.assertion) node = false)
  /\ snd (extractAssertions (Assertion := Sample.assertion)
                            Fixture.plainProgram) = 0%nat
  /\ fst (extractAssertions (Assertion := Sample.assertion)
                            Fixture.plainProgram) = [].
Proof.
  assert (Hnone : forall node,
             In node (nodesOf Fixture.plainProgram) ->
             isAssertionCall (Assertion := Sample.assertion) node = false).
  { intros node [<- | [<- | []]]; reflexivity. }
  destruct (X5_count_zero_iff_no_assertion_call
              (Assertion := Sample.assertion) Fixture.plainProgram)
    as [[_ Hzero] Hempty].
  split; [exact Hnone |]. split; [exact (Hzero Hnone) |].
  exact (Hempty (Hzero Hnone)).
Defined.

Lemma X7_outer_call_is_indexed_before_inner :
  distinctIdentities (nodesOf Fixture.nestedProgram)
  /\ map snd (parseErrorAssertionToLocation (Assertion := Sample.assertion)
                (fst (extractAssertions (Assertion := Sample.assertion)
                                        Fixture.nestedProgram)))
     = [Fixture.outerCall; Fixture.innerCall;
        Node.mk 21 (Node.CallExpression "expectError") Sample.helperFile 5 5 30
                []].
Proof.
  assert (Hids : distinctIdentities (nodesOf Fixture.nestedProgram)).
  { distinct_identities. }
  split; [exact Hids |].
  rewrite (X7_index_follows_traversal_order
             (Assertion := Sample.assertion) Fixture.nestedProgram Hids).
  - reflexivity.
  - cbn. auto.
Defined.

Lemma X8_results_of_an_unmet_expectation :
  completes (host := Sample.reporting Sample.cannotFindName) Sample.path
  /\ tsdResults
       (result (tsdLite (Assertion := Sample.assertion)
                        (host := Sample.reporting Sample.cannotFindName)
                        Sample.path))
     = [OfDiagnostic (Diagnostic.WithLocation Sample.cannotFindName);
        OfExpectedError Sample.expectErrorCall expectedAnError].
Proof.
  assert (Hrun : completes (host := Sample.reporting Sample.cannotFindName)
                           Sample.path).
  { split; reflexivity. }
  split; [exact Hrun |].
  rewrite (X8_results_are_ordered_in_three_parts
             (Assertion := Sample.assertion) Sample.path Hrun).
  reflexivity.
Defined.

Lemma X11_one_expectation_one_diagnostic :
  spanContains Sample.expectErrorCall Sample.argumentNotAssignable
  /\ ~ In (OfDiagnostic (Diagnostic.WithLocation Sample.argumentNotAssignable))
          (tsdResults
             (result (tsdLite (Assertion := Sample.assertion)
                              (host := Fixture.satisfied) Sample.path)))
  /\ forall messageText,
       ~ In (OfExpectedError Sample.expectErrorCall messageText)
            (tsdResults
               (result (tsdLite (Assertion := Sample.assertion)
                                (host := Fixture.satisfied) Sample.path))).
Proof.
  assert (Hinside : spanContains Sample.expectErrorCall
                                 Sample.argumentNotAssignable).
  { unfold spanContains. cbn. repeat split; lia. }
  split; [exact Hinside |].
  apply (X11_satisfied_expectation_is_silent
           (Assertion := Sample.assertion) (host := Fixture.satisfied)
           Sample.path Sample.expectErrorCall Sample.argumentNotAssignable).
  - split; reflexivity.
  - exact Sample_testTree_identities.
  - cbn. auto.
  - cbn. auto.
  - reflexivity.
  - now left.
  - reflexivity.
  - reflexivity.
  - exact Hinside.
  - intros node Hin Hcall _. cbn in Hin.
    destruct Hin as [<- | [<- | [<- | [<- | []]]]];
      try reflexivity; unfold isCallOf in Hcall; cbn in Hcall; discriminate.
Defined.

Lemma X12_inner_call_is_reported_unmet :
  completes (host := Fixture.nested) Sample.path
  /\ strictlyContains (locationOf 1 Fixture.innerCall) Fixture.insideBoth
  /\ In (OfExpectedError Fixture.innerCall expectedAnError)
        (tsdResults
           (result (tsdLite (Assertion := Sample.assertion)
                            (host := Fixture.nested) Sample.path))).
Proof.
  assert (Hrun : completes (host := Fixture.nested) Sample.path).
  { split; reflexivity. }
  split; [exact Hrun |]. split.
  { unfold strictlyContains. cbn. repeat split; lia. }
  apply (X12_shadowed_expectation_is_reported_unmet
           (Assertion := Sample.assertion) (host := Fixture.nested)
           Sample.path [(locationOf 0 Fixture.outerCall, Fixture.outerCall)]
           [] (locationOf 1 Fixture.innerCall) Fixture.innerCall Hrun).
  - reflexivity.
  - intros d [Hd | []] _ _ _. injection Hd as <-.
    exists (locationOf 0 Fixture.outerCall, Fixture.outerCall).
    split; [now left |]. unfold strictlyContains. cbn. repeat split; lia.
Defined.

Lemma X13_dependency_call_is_reported_unmet :
  underNodeModules
    (SourceFile.fileName (Node.getSourceFile Fixture.dependencyCall))
  /\ spanContains Fixture.dependencyCall Fixture.insideDependencyCall
  /\ In (OfExpectedError Fixture.dependencyCall expectedAnError)
        (tsdResults
           (result (tsdLite (Assertion := Sample.assertion)
                            (host := Fixture.withDependency) Sample.path))).
Proof.
  assert (Hunder : underNodeModules
                     (SourceFile.fileName
                        (Node.getSourceFile Fixture.dependencyCall))).
  { exists "/project", "dep/index.d.ts", "/"%char, "/"%char.
    repeat split. }
  split; [exact Hunder |]. split.
  { unfold spanContains. cbn. repeat split; lia. }
  apply (X13_expectation_in_dependency_is_always_unmet
           (Assertion := Sample.assertion) (host := Fixture.withDependency)
           Sample.path Fixture.dependencyCall).
  - split; reflexivity.
  - distinct_identities.
  - cbn. auto.
  - cbn. auto 10.
  - reflexivity.
  - exact Hunder.
Defined.

Lemma X14_bound_on_the_sample_run :
  completes (host := Sample.reporting Sample.cannotFindName) Sample.path
  /\ (List.length
        (expectedErrorsOf (Assertion := Sample.assertion)
           (host := Sample.reporting Sample.cannotFindName) Sample.path)
      <= assertionCount
           (result (tsdLite (Assertion := Sample.assertion)
                            (host := Sample.reporting Sample.cannotFindName)
                            Sample.path)))%nat.
Proof.
  assert (Hrun : completes (host := Sample.reporting Sample.cannotFindName)
                           Sample.path).
  { split; reflexivity. }
  split; [exact Hrun |].
  exact (proj2 (X14_unmet_expectations_bounded_by_count
                  (Assertion := Sample.assertion) Sample.path) Hrun).
Defined.

Lemma X15_results_without_expectations :
  completes (host := Fixture.withoutExpectations) Sample.path
  /\ tsdResults
       (result (tsdLite (Assertion := Sample.assertion)
                        (host := Fixture.withoutExpectations) Sample.path))
     = [OfDiagnostic (Diagnostic.WithLocation Sample.afterTheCall);
        OfDiagnostic (Diagnostic.WithLocation Sample.cannotFindName)].
Proof.
  assert (Hrun : completes (host := Fixture.withoutExpectations) Sample.path).
  { split; reflexivity. }
  split; [exact Hrun |].
  rewrite (X15_without_expectations_all_reportable_surface
             (Assertion := Sample.assertion)
             (host := Fixture.withoutExpectations) Sample.path Hrun).
  - reflexivity.
  - intros node [<- | [<- | []]] Hcall; unfold isCallOf in Hcall;
      cbn in Hcall; discriminate.
Defined.

Lemma X17_swapping_two_diagnostics :
  NoDup (keysOf Sample.index)
  /\ removeFound
       (snd (result
               (forOf (reconcileDiagnostic
                         (host := Fixture.satisfied) Sample.index)
                      [Diagnostic.WithLocation Sample.cannotFindName;
                       Diagnostic.WithLocation Sample.argumentNotAssignable]
                      ([], []))))
       Sample.index
     = removeFound
         (snd (result
                 (forOf (reconcileDiagnostic
                           (host := Fixture.satisfied) Sample.index)
                        [Diagnostic.WithLocation Sample.argumentNotAssignable;
                         Diagnostic.WithLocation Sample.cannotFindName]
                        ([], []))))
         Sample.index.
Proof.
  assert (Hkeys : NoDup (keysOf Sample.index)).
  { cbn. repeat constructor. intros []. }
  split; [exact Hkeys |].
  exact (proj1 (X17_diagnostic_order_only_reorders_results
                  (host := Fixture.satisfied) Sample.index
                  [Diagnostic.WithLocation Sample.cannotFindName;
                   Diagnostic.WithLocation Sample.argumentNotAssignable]
                  [Diagnostic.WithLocation Sample.argumentNotAssignable;
                   Diagnostic.WithLocation Sample.cannotFindName]
                  [] Hkeys (perm_swap _ _ _))).
Defined.

Lemma X18_calls_of_the_mixed_run :
  completes (host := Fixture.withoutExpectations) Sample.path
  /\ calls (tsdLite (Assertion := Sample.assertion)
                    (host := Fixture.withoutExpectations) Sample.path)
     = [Call.resolveCompilerOptions Sample.path;
        Call.createProgram [Sample.path];
        Call.getSyntacticDiagnostics;
        Call.getSemanticDiagnostics;
        Call.getTypeChecker;
        Call.extractAssertions;
        Call.handleAssertions;
        Call.parseErrorAssertionToLocation;
        Call.isIgnoredDiagnostic Sample.afterTheCall;
        Call.isIgnoredDiagnostic Sample.awaitOutsideAsync;
        Call.isIgnoredDiagnostic Sample.cannotFindName].
Proof.
  assert (Hrun : completes (host := Fixture.withoutExpectations) Sample.path).
  { split; reflexivity. }
  split; [exact Hrun |].
  rewrite (X18_calls_of_a_complete_run
             (Assertion := Sample.assertion)
             (host := Fixture.withoutExpectations) Sample.path Hrun).
  reflexivity.
Defined.

(** ** The count of a run *)

Section RunCount.
Context {Assertion : AssertionEnum} {host : Host}.

(** *** X19 *)

(** X19. In a run that takes no short-circuit, with distinct node
    identities, [assertionCount] is the number of calls of recognised
    identifiers over all source files of the program, [expectError] calls
    included, whether or not a diagnostic satisfies them: it does not
    depend on the semantic diagnostics nor on what [handleAssertions]
    returns. *)
Theorem X19_count_of_a_complete_run (testFilePath : string) :
  completes testFilePath ->
  distinctIdentities (nodesOf (programOf testFilePath)) ->
  assertionCount (result (tsdLite testFilePath))
  = List.length (filter isAssertionCall (nodesOf (programOf testFilePath))).
Proof.
  intros Hrun Hids. rewrite (tsdLite_completes _ Hrun). unfold result.
  cbn [fst assertionCount]. rewrite <- (collect_count _ Hids).
  rewrite <- extractAssertions_nodesOf. unfold extractAssertions.
  cbn [fst snd]. apply countAssertions_totalSize.
Qed.
End RunCount.

Lemma X19_satisfied_expectation_is_counted :
  completes (host := Fixture.satisfied) Sample.path
  /\ distinctIdentities (nodesOf (programOf (host := Fixture.satisfied)
                                            Sample.path))
  /\ assertionCount
       (result (tsdLite (Assertion := Sample.assertion)
                        (host := Fixture.satisfied) Sample.path)) = 1%nat
  /\ tsdResults
       (result (tsdLite (Assertion := Sample.assertion)
                        (host := Fixture.satisfied) Sample.path)) = [].
Proof.
  assert (Hrun : completes (host := Fixture.satisfied) Sample.path).
  { split; reflexivity. }
  split; [exact Hrun |]. split; [exact Sample_testTree_identities |].
  split; [| reflexivity].
  rewrite (X19_count_of_a_complete_run
             (Assertion := Sample.assertion) (host := Fixture.satisfied)
             Sample.path Hrun Sample_testTree_identities).
  reflexivity.
Defined.

(** ** What the pushed failure holds *)

Lemma C2_failure_does_not_carry_the_start :
  completes (host := Edge.indented) Sample.path
  /\ remainingOf (Assertion := Sample.assertion) (host := Edge.indented)
                 Sample.path
     = [(Location.mk 0 "/project/index.test.ts" 105 130, Edge.indentedCall)]
  /\ expectedErrorObjects
       (tsdResults
          (result (tsdLite (Assertion := Sample.assertion)
                           (host := Edge.indented) Sample.path)))
     = [ExpectedErrorObject.mk 104 130 None None
                               "Expected an error, but found none."]
  /\ forall object,
       In object
          (expectedErrorObjects
             (tsdResults
                (result (tsdLite (Assertion := Sample.assertion)
                                 (host := Edge.indented) Sample.path)))) ->
       ExpectedErrorObject.start object <> Some 105
       /\ ExpectedErrorObject.pos object <> 105
       /\ ExpectedErrorObject.file object <> Some Sample.testFile.
Proof.
  split; [split; reflexivity |]. split; [reflexivity |].
  split; [reflexivity |].
  intros object [<- | []]. cbn. repeat split; discriminate.
Qed.

(** ** Paths the dependency test lets through *)


Lemma segments_nonempty (path : string) : segments path <> [].
Proof.
  destruct path as [| c rest]; cbn; [discriminate |].
  destruct (NodeModules.separator c); [discriminate |].
  destruct (segments rest); discriminate.
Qed.

Lemma segments_app_separator (before rest : string) (s : ascii) :
  NodeModules.separator s = true ->
  segments (before ++ String s rest) = segments before ++ segments rest.
Proof.
  intros Hs. induction before as [| c before IH].
  - cbn [append segments app]. now rewrite Hs.
  - cbn [append segments]. rewrite IH.
    destruct (NodeModules.separator c); [reflexivity |].
    pose proof (segments_nonempty before) as Hne.
    now destruct (segments before).
Qed.

(** Every name the test accepts has a directory named [node_modules]. *)
Lemma NodeModules_test_liesUnder (fileName : string) :
  NodeModules.test fileName = true -> liesUnderNodeModules fileName = true.
Proof.
  intros H. apply NodeModules_test_spec in H.
  destruct H as [before [after [s1 [s2 [H1 [H2 ->]]]]]].
  unfold liesUnderNodeModules.
  rewrite (segments_app_separator before _ s1 H1).
  rewrite (segments_app_separator "node_modules" after s2 H2).
  change (segments "node_modules") with ["node_modules"%string].
  rewrite removelast_app
    by (cbn [app]; discriminate).
  cbn [app].
  pose proof (segments_nonempty after) as Hne.
  destruct (segments after) as [| x l]; [contradiction |].
  rewrite existsb_app. cbn [removelast existsb].
  rewrite String.eqb_refl. cbn. apply orb_true_r.
Qed.

(** ** Many diagnostics for one expectation *)

Lemma In_classifierCalls_of (ds : list Diagnostic.t)
    (d : DiagnosticWithLocation.t) :
  In (Diagnostic.WithLocation d) ds ->
  NodeModules.test (SourceFile.fileName (DiagnosticWithLocation.file d))
    = false ->
  In (Call.isIgnoredDiagnostic d) (classifierCalls ds).
Proof.
  intros Hd Htest. unfold classifierCalls. apply in_flat_map.
  exists (Diagnostic.WithLocation d). split; [assumption |].
  rewrite Htest. now left.
Qed.

Lemma answeredWith_spec (E : ExpectedErrors.t) (location : Location.t)
    (error : Node.t) (diagnostic : Diagnostic.t) :
  NoDup (keysOf E) ->
  In (location, error) E ->
  answeredWith E location diagnostic = true
  <-> verdict E diagnostic = Some (matched location).
Proof.
  intros Hnd Hin. unfold answeredWith. split.
  - destruct (verdict E diagnostic) as [[| | l] |] eqn:Hv;
      try discriminate.
    intros Hkey. apply Nat.eqb_eq in Hkey.
    apply verdict_matched in Hv. destruct Hv as [d [_ [_ Hm]]].
    destruct (isIgnoredDiagnostic_matched _ _ _ Hm) as [_ [_ [e He]]].
    assert (Hsame : (l, e) = (location, error)).
    { now apply (keysOf_injective E). }
    now injection Hsame as -> _.
  - intros ->. apply Nat.eqb_refl.
Qed.

Lemma foundLocations_of_one_entry (E : ExpectedErrors.t)
    (location : Location.t) (error : Node.t) (ds : list Diagnostic.t) :
  NoDup (keysOf E) ->
  In (location, error) E ->
  filter (fun key => ExpectedErrors.sameKey key location)
         (foundLocations E ds)
  = repeat location (List.length (filter (answeredWith E location) ds)).
Proof.
  intros Hnd Hin. unfold foundLocations.
  induction ds as [| x ds IH]; [reflexivity |].
  cbn [flat_map filter]. rewrite filter_app, IH.
  pose proof (answeredWith_spec E location error x Hnd Hin) as Hspec.
  unfold answeredWith in *.
  destruct (verdict E x) as [[| | l] |]; try reflexivity.
  cbn [filter].
  destruct (ExpectedErrors.sameKey l location); [| reflexivity].
  assert (Hl : Some (matched l) = Some (matched location))
    by now apply Hspec.
  injection Hl as ->. reflexivity.
Qed.

Section ManyToOne.
Context {Assertion : AssertionEnum} {host : Host}.

(** *** C9 *)

(** C9. In a run of [tsdLite] that reconciles, take an entry of the index
    and the semantic diagnostics of the run that the classifier, given the
    whole index, answers with that entry; let there be at least one, and
    any number. Every one of them is classified by the run, against the
    whole index, and none is in the results. The loop records the entry
    for removal once per such diagnostic. After the removals no entry of
    that key is left, the entries that no diagnostic was answered with are
    all still there, and the results hold no failure for the node of the
    entry. *)
Theorem C9_one_entry_absorbs_many_diagnostics (testFilePath : string)
    (location : Location.t) (error : Node.t) :
  completes testFilePath ->
  In (location, error) (expectedErrorsOf testFilePath) ->
  filter (answeredWith (expectedErrorsOf testFilePath) location)
         (semanticDiagnosticsOf testFilePath) <> [] ->
  (forall d,
      In (Diagnostic.WithLocation d)
         (filter (answeredWith (expectedErrorsOf testFilePath) location)
                 (semanticDiagnosticsOf testFilePath)) ->
      In (Call.isIgnoredDiagnostic d) (calls (tsdLite testFilePath))
      /\ isIgnoredDiagnostic d (expectedErrorsOf testFilePath)
         = matched location
      /\ ~ In (OfDiagnostic (Diagnostic.WithLocation d))
              (tsdResults (result (tsdLite testFilePath))))
  /\ (forall diagnostic,
         In diagnostic
            (filter (answeredWith (expectedErrorsOf testFilePath) location)
                    (semanticDiagnosticsOf testFilePath)) ->
         exists d, diagnostic = Diagnostic.WithLocation d)
  /\ filter (fun key => ExpectedErrors.sameKey key location)
            (snd (reconciledOf testFilePath))
     = repeat location
         (List.length
            (filter (answeredWith (expectedErrorsOf testFilePath) location)
                    (semanticDiagnosticsOf testFilePath)))
  /\ (forall entry, In entry (remainingOf testFilePath) ->
                    Location.ref (fst entry) <> Location.ref location)
  /\ (forall entry,
         In entry (expectedErrorsOf testFilePath) ->
         (forall d,
             In (Diagnostic.WithLocation d)
                (semanticDiagnosticsOf testFilePath) ->
             NodeModules.test
               (SourceFile.fileName (DiagnosticWithLocation.file d))
               = false ->
             isIgnoredDiagnostic d (expectedErrorsOf testFilePath)
               <> matched (fst entry)) ->
         In entry (remainingOf testFilePath)
         /\ In (OfExpectedError (snd entry)
                                "Expected an error, but found none.")
               (tsdResults (result (tsdLite testFilePath))))
  /\ forall messageText,
       ~ In (OfExpectedError error messageText)
            (tsdResults (result (tsdLite testFilePath))).
Proof.
  intros Hrun Hentry Hsome.
  pose proof (expectedErrorsOf_NoDup testFilePath) as Hnd.
  set (E := expectedErrorsOf testFilePath) in *.
  set (ds := semanticDiagnosticsOf testFilePath) in *.
  assert (Habsorbed : forall diagnostic,
             In diagnostic (filter (answeredWith E location) ds) ->
             exists d,
               diagnostic = Diagnostic.WithLocation d
               /\ In (Diagnostic.WithLocation d) ds
               /\ NodeModules.test
                    (SourceFile.fileName (DiagnosticWithLocation.file d))
                  = false
               /\ isIgnoredDiagnostic d E = matched location).
  { intros diagnostic Hin. apply filter_In in Hin.
    destruct Hin as [Hin Hans].
    apply (answeredWith_spec E location error _ Hnd Hentry) in Hans.
    apply verdict_matched in Hans. destruct Hans as [d [-> [Htest Hm]]].
    exists d. auto. }
  assert (Hgone : forall entry,
             In entry (remainingOf testFilePath) ->
             Location.ref (fst entry) <> Location.ref location).
  { intros entry Hin. rewrite remainingOf_eq in Hin.
    apply filter_In in Hin. destruct Hin as [_ Hun].
    apply (proj1 (unmatched_spec _ _) Hun).
    destruct (filter (answeredWith E location) ds) as [| x xs] eqn:Hxs;
      [contradiction |].
    destruct (Habsorbed x (or_introl eq_refl))
      as [d [-> [Hd [Htest Hm]]]].
    apply In_foundLocations. exists (Diagnostic.WithLocation d).
    split; [assumption |]. apply verdict_matched. now exists d. }
  split; [| split; [| split; [| split; [| split]]]].
  - intros d Hin.
    destruct (Habsorbed _ Hin) as [d' [Heq [Hd [Htest Hm]]]].
    injection Heq as <-. split; [| split].
    + rewrite (tsdLite_completes _ Hrun). unfold calls. cbn [snd].
      apply in_or_app. right. now apply In_classifierCalls_of.
    + assumption.
    + intros Hres. apply In_tsdResults_OfDiagnostic in Hres.
      destruct Hres as [_ Hv]. unfold verdict in Hv.
      fold E in Hv. rewrite Htest, Hm in Hv. discriminate.
  - intros diagnostic Hin.
    destruct (Habsorbed _ Hin) as [d [-> _]]. now exists d.
  - rewrite reconciledOf_eq. cbn [snd].
    now apply (foundLocations_of_one_entry E location error).
  - exact Hgone.
  - intros entry Hin Hnone. destruct entry as [l e].
    assert (Hstays : In (l, e) (remainingOf testFilePath)).
    { now apply remains. }
    split; [assumption |].
    apply In_tsdResults_OfExpectedError.
    split; [assumption |]. split; [reflexivity |]. now exists l.
  - intros messageText Hres. apply In_tsdResults_OfExpectedError in Hres.
    destruct Hres as [_ [_ [l Hl]]].
    assert (Hl' : In (l, error) E).
    { rewrite remainingOf_eq in Hl. now apply filter_In in Hl. }
    assert (l = location) as ->.
    { now apply (expectedErrorsOf_same_node testFilePath _ _ error). }
    now apply (Hgone _ Hl).
Qed.
End ManyToOne.

Lemma C9_three_diagnostics_one_expectation :
  completes (host := Edge.crowded) Sample.path
  /\ In (Location.mk 0 "/project/index.test.ts" 10 40, Sample.expectErrorCall)
        (expectedErrorsOf (Assertion := Sample.assertion)
                          (host := Edge.crowded) Sample.path)
  /\ filter (answeredWith
               (expectedErrorsOf (Assertion := Sample.assertion)
                                 (host := Edge.crowded) Sample.path)
               (Location.mk 0 "/project/index.test.ts" 10 40))
            (semanticDiagnosticsOf (host := Edge.crowded) Sample.path)
     = map Diagnostic.WithLocation Sample.threeInside
  /\ filter (fun key =>
               ExpectedErrors.sameKey
                 key (Location.mk 0 "/project/index.test.ts" 10 40))
            (snd (reconciledOf (Assertion := Sample.assertion)
                               (host := Edge.crowded) Sample.path))
     = repeat (Location.mk 0 "/project/index.test.ts" 10 40) 3
  /\ (forall d,
         In d Sample.threeInside ->
         ~ In (OfDiagnostic (Diagnostic.WithLocation d))
              (tsdResults
                 (result (tsdLite (Assertion := Sample.assertion)
                                  (host := Edge.crowded) Sample.path))))
  /\ (forall messageText,
         ~ In (OfExpectedError Sample.expectErrorCall messageText)
              (tsdResults
                 (result (tsdLite (Assertion := Sample.assertion)
                                  (host := Edge.crowded) Sample.path))))
  /\ In (OfExpectedError Edge.secondCall "Expected an error, but found none.")
        (tsdResults
           (result (tsdLite (Assertion := Sample.assertion)
                            (host := Edge.crowded) Sample.path))).
Proof.
  assert (Hrun : completes (host := Edge.crowded) Sample.path).
  { split; reflexivity. }
  assert (Hentry :
            In (Location.mk 0 "/project/index.test.ts" 10 40,
                Sample.expectErrorCall)
               (expectedErrorsOf (Assertion := Sample.assertion)
                                 (host := Edge.crowded) Sample.path)).
  { now left. }
  assert (Hthree :
            filter (answeredWith
                      (expectedErrorsOf (Assertion := Sample.assertion)
                                        (host := Edge.crowded) Sample.path)
                      (Location.mk 0 "/project/index.test.ts" 10 40))
                   (semanticDiagnosticsOf (host := Edge.crowded) Sample.path)
            = map Diagnostic.WithLocation Sample.threeInside).
  { reflexivity. }
  destruct (C9_one_entry_absorbs_many_diagnostics
              (Assertion := Sample.assertion) (host := Edge.crowded)
              Sample.path (Location.mk 0 "/project/index.test.ts" 10 40)
              Sample.expectErrorCall Hrun Hentry)
    as (Heach & _ & Hrecords & _ & Hothers & Hsilent).
  { rewrite Hthree. discriminate. }
  split; [exact Hrun |]. split; [exact Hentry |]. split; [exact Hthree |].
  split; [| split; [| split; [exact Hsilent |]]].
  - rewrite Hrecords, Hthree. reflexivity.
  - intros d Hd. apply Heach. rewrite Hthree. now apply in_map.
  - apply (Hothers (Location.mk 1 "/project/index.test.ts" 50 80,
                    Edge.secondCall)).
    + right. now left.
    + intros d [Hd | [Hd | [Hd | [Hd | []]]]] _; injection Hd as <-;
        discriminate.
Defined.
